(** * Solar-system catalogue ([solar_system.py]) and its derivation core

    The first half of this development embeds the Python module
    [solar_system.py]: the table [SOLAR_SYSTEM_BODIES] (a list of dict
    literals), the two comprehensions [DEFAULT_BODIES] and [PARENT_MAP],
    the kernel list and the four named constants.  Python values are
    embedded as a small inductive type, dicts as insertion-ordered
    association lists, floats as binary64 ([PrimFloat]), and the
    exceptions a subscript or attribute access can raise as an error
    monad.

    The second half models the consumers the specification describes
    (catalogue validation, hierarchy index, fallback resolver, Kepler
    propagator), which the module itself does not contain. *)

From Stdlib Require Import ZArith Ascii String List Bool Lia.
From Stdlib Require Import Floats.
From Stdlib Require Import Reals Lra.
From stdpp Require Import base tactics option list relations.

#[local] Set Warnings "-inexact-float,-register-all".
#[local] Open Scope string_scope.
#[local] Open Scope Z_scope.

(** ** Python values *)

Module Py.

Inductive PyVal : Type :=
  | PyNone
  | PyBool (b : bool)
  | PyInt (z : Z)
  | PyFloat (f : float)
  | PyStr (s : string)
  | PyList (l : list PyVal)
  | PyDict (d : list (PyVal * PyVal)).

#[global] Arguments PyInt z%_Z.
#[global] Arguments PyFloat f%_float.
#[global] Arguments PyStr s%_string.

(** An entry ["k": v] of a dict literal. *)
Notation "k ::= v" := (PyStr k, v) (at level 70, no associativity).

(** The exceptions the module's expressions can raise. *)
Inductive PyExc : Type :=
  | KeyError (k : PyVal)
  | TypeError
  | AttributeError.

Definition PyResult (A : Type) : Type := PyExc + A.

Definition ok {A} (x : A) : PyResult A := inr x.
Definition raise {A} (e : PyExc) : PyResult A := inl e.

Definition bind {A B} (m : PyResult A) (k : A -> PyResult B) : PyResult B :=
  match m with
  | inl e => inl e
  | inr x => k x
  end.

Notation "'let!' x ':=' m 'in' k" := (bind m (fun x => k))
  (at level 10, x name, m at level 100, k at level 200).

(** [v is None]. *)
Definition is_None (v : PyVal) : bool :=
  match v with
  | PyNone => true
  | _ => false
  end.

(** Exact comparison of a binary64 value with an integer, as Python's
    [float == int] does it (no rounding of the integer). *)
Definition float_eq_Z (f : float) (z : Z) : bool :=
  match Prim2SF f with
  | S754_zero _ => z =? 0
  | S754_finite s m e =>
      let n := if s then Z.neg m else Z.pos m in
      if 0 <=? e then n * 2 ^ e =? z else n =? z * 2 ^ (- e)
  | _ => false
  end.

Definition Z_of_bool (b : bool) : Z := if b then 1 else 0.

(** [v == w] on scalars: [None], and the numeric tower [bool], [int],
    [float] compared by value, strings by contents.  The module only
    compares against an [int] literal and between dict keys, so neither
    side of a use is ever two containers; on a container the result
    [false] is Python's answer whenever the other side is a scalar. *)
Definition py_eqb (v w : PyVal) : bool :=
  match v, w with
  | PyNone, PyNone => true
  | PyBool a, PyBool b => Bool.eqb a b
  | PyBool a, PyInt z | PyInt z, PyBool a => Z_of_bool a =? z
  | PyBool a, PyFloat f | PyFloat f, PyBool a => float_eq_Z f (Z_of_bool a)
  | PyInt a, PyInt b => a =? b
  | PyInt z, PyFloat f | PyFloat f, PyInt z => float_eq_Z f z
  | PyFloat a, PyFloat b => PrimFloat.eqb a b
  | PyStr a, PyStr b => String.eqb a b
  | _, _ => false
  end.

(** Lists and dicts are unhashable: using one as a dict key raises
    [TypeError]. *)
Definition hashable (v : PyVal) : bool :=
  match v with
  | PyList _ | PyDict _ => false
  | _ => true
  end.

(** Dicts keep insertion order; a key occurs once. *)
Fixpoint dict_lookup (d : list (PyVal * PyVal)) (k : PyVal) : option PyVal :=
  match d with
  | [] => None
  | (k', v) :: d' => if py_eqb k' k then Some v else dict_lookup d' k
  end.

(** [d[k] = v] on the entries: an existing key keeps its position and
    gets the new value, a new key is appended. *)
Fixpoint dict_store (d : list (PyVal * PyVal)) (k v : PyVal)
  : list (PyVal * PyVal) :=
  match d with
  | [] => [(k, v)]
  | (k', v') :: d' =>
      if py_eqb k' k then (k', v) :: d' else (k', v') :: dict_store d' k v
  end.

Definition dict_setitem (d : list (PyVal * PyVal)) (k v : PyVal)
  : PyResult (list (PyVal * PyVal)) :=
  if hashable k then ok (dict_store d k v) else raise TypeError.

Definition dict_keys (d : list (PyVal * PyVal)) : list PyVal := map fst d.

(** [x[k]] for a string key [k]: only a dict accepts it, and raises
    [KeyError] when the key is missing. *)
Definition py_getitem (x : PyVal) (k : string) : PyResult PyVal :=
  match x with
  | PyDict d =>
      match dict_lookup d (PyStr k) with
      | Some v => ok v
      | None => raise (KeyError (PyStr k))
      end
  | _ => raise TypeError
  end.

(** [x.get(k)]: [None] when the key is missing; only dicts have the
    method. *)
Definition py_get (x : PyVal) (k : string) : PyResult PyVal :=
  match x with
  | PyDict d =>
      match dict_lookup d (PyStr k) with
      | Some v => ok v
      | None => ok PyNone
      end
  | _ => raise AttributeError
  end.

(** [k in x] for a dict [x]. *)
Definition has_key (x : PyVal) (k : string) : bool :=
  match x with
  | PyDict d => bool_decide (is_Some (dict_lookup d (PyStr k)))
  | _ => false
  end.

End Py.
Import Py.

(** ** The module [solar_system.py] *)

Definition SOLAR_SYSTEM_BODIES : list PyVal := [
  (* Solar System Barycenter *)
  PyDict [
    "id" ::= PyInt 0;
    "name" ::= PyStr "Solar System Barycenter";
    "parent" ::= PyNone;
    "streamed" ::= PyBool false ];
  (* Sun *)
  PyDict [
    "id" ::= PyInt 10;
    "name" ::= PyStr "Sun";
    "parent" ::= PyInt 0;
    "streamed" ::= PyBool true ];
  (* Mercury Barycenter *)
  PyDict [
    "id" ::= PyInt 1;
    "name" ::= PyStr "Mercury Barycenter";
    "parent" ::= PyInt 0;
    "streamed" ::= PyBool true;
    "canonical_orbit" ::= PyDict [
        "a" ::= PyFloat 57909050.0;
        "e" ::= PyFloat 0.2056;
        "i" ::= PyFloat 7.005;
        "Omega" ::= PyFloat 48.331;
        "omega" ::= PyFloat 29.124;
        "M0" ::= PyFloat 174.796 ] ];
  (* Venus Barycenter *)
  PyDict [
    "id" ::= PyInt 2;
    "name" ::= PyStr "Venus Barycenter";
    "parent" ::= PyInt 0;
    "streamed" ::= PyBool true;
    "canonical_orbit" ::= PyDict [
        "a" ::= PyFloat 108208000.0;
        "e" ::= PyFloat 0.0067;
        "i" ::= PyFloat 3.3947;
        "Omega" ::= PyFloat 76.680;
        "omega" ::= PyFloat 54.884;
        "M0" ::= PyFloat 50.416 ] ];
  (* Earth Barycenter *)
  PyDict [
    "id" ::= PyInt 3;
    "name" ::= PyStr "Earth Barycenter";
    "parent" ::= PyInt 0;
    "streamed" ::= PyBool true;
    "canonical_orbit" ::= PyDict [
        "a" ::= PyFloat 149598023.0;
        "e" ::= PyFloat 0.0167;
        "i" ::= PyFloat 0.000;
        "Omega" ::= PyFloat (-11.26064);
        "omega" ::= PyFloat 114.20783;
        "M0" ::= PyFloat 358.617 ] ];
  (* Mars Barycenter *)
  PyDict [
    "id" ::= PyInt 4;
    "name" ::= PyStr "Mars Barycenter";
    "parent" ::= PyInt 0;
    "streamed" ::= PyBool true;
    "canonical_orbit" ::= PyDict [
        "a" ::= PyFloat 227939200.0;
        "e" ::= PyFloat 0.0935;
        "i" ::= PyFloat 1.850;
        "Omega" ::= PyFloat 49.558;
        "omega" ::= PyFloat 286.502;
        "M0" ::= PyFloat 19.373 ] ];
  (* Jupiter Barycenter *)
  PyDict [
    "id" ::= PyInt 5;
    "name" ::= PyStr "Jupiter Barycenter";
    "parent" ::= PyInt 0;
    "streamed" ::= PyBool true;
    "canonical_orbit" ::= PyDict [
        "a" ::= PyFloat 778570000.0;
        "e" ::= PyFloat 0.0489;
        "i" ::= PyFloat 1.303;
        "Omega" ::= PyFloat 100.464;
        "omega" ::= PyFloat 273.867;
        "M0" ::= PyFloat 20.020 ] ];
  (* Saturn Barycenter *)
  PyDict [
    "id" ::= PyInt 6;
    "name" ::= PyStr "Saturn Barycenter";
    "parent" ::= PyInt 0;
    "streamed" ::= PyBool true;
    "canonical_orbit" ::= PyDict [
        "a" ::= PyFloat 1433530000.0;
        "e" ::= PyFloat 0.0565;
        "i" ::= PyFloat 2.485;
        "Omega" ::= PyFloat 113.665;
        "omega" ::= PyFloat 339.392;
        "M0" ::= PyFloat 317.020 ] ];
  (* Uranus Barycenter *)
  PyDict [
    "id" ::= PyInt 7;
    "name" ::= PyStr "Uranus Barycenter";
    "parent" ::= PyInt 0;
    "streamed" ::= PyBool true;
    "canonical_orbit" ::= PyDict [
        "a" ::= PyFloat 2875040000.0;
        "e" ::= PyFloat 0.0463;
        "i" ::= PyFloat 0.773;
        "Omega" ::= PyFloat 74.006;
        "omega" ::= PyFloat 96.998;
        "M0" ::= PyFloat 142.2386 ] ];
  (* Neptune Barycenter *)
  PyDict [
    "id" ::= PyInt 8;
    "name" ::= PyStr "Neptune Barycenter";
    "parent" ::= PyInt 0;
    "streamed" ::= PyBool true;
    "canonical_orbit" ::= PyDict [
        "a" ::= PyFloat 4504450000.0;
        "e" ::= PyFloat 0.0097;
        "i" ::= PyFloat 1.770;
        "Omega" ::= PyFloat 131.784;
        "omega" ::= PyFloat 273.187;
        "M0" ::= PyFloat 256.228 ] ];
  (* Pluto System Barycenter *)
  PyDict [
    "id" ::= PyInt 9;
    "name" ::= PyStr "Pluto System Barycenter";
    "parent" ::= PyInt 0;
    "streamed" ::= PyBool true;
    "canonical_orbit" ::= PyDict [
        "a" ::= PyFloat 5906440628.0;
        "e" ::= PyFloat 0.2488;
        "i" ::= PyFloat 17.16;
        "Omega" ::= PyFloat 110.299;
        "omega" ::= PyFloat 113.834;
        "M0" ::= PyFloat 14.53 ] ];
  (* Mercury *)
  PyDict [
    "id" ::= PyInt 199;
    "name" ::= PyStr "Mercury";
    "parent" ::= PyInt 1;
    "j2" ::= PyFloat 6.0e-5;
    "r_eq" ::= PyFloat 2439.7;
    "streamed" ::= PyBool true;
    "GM" ::= PyFloat 22031.86855;
    "canonical_orbit" ::= PyDict [
        "a" ::= PyFloat 57909050.0;
        "e" ::= PyFloat 0.2056;
        "i" ::= PyFloat 7.005;
        "Omega" ::= PyFloat 48.331;
        "omega" ::= PyFloat 29.124;
        "M0" ::= PyFloat 174.796 ] ];
  (* Venus *)
  PyDict [
    "id" ::= PyInt 299;
    "name" ::= PyStr "Venus";
    "parent" ::= PyInt 2;
    "j2" ::= PyFloat 4.458e-6;
    "r_eq" ::= PyFloat 6051.8;
    "streamed" ::= PyBool true;
    "GM" ::= PyFloat 324858.592;
    "canonical_orbit" ::= PyDict [
        "a" ::= PyFloat 108208000.0;
        "e" ::= PyFloat 0.0067;
        "i" ::= PyFloat 3.3947;
        "Omega" ::= PyFloat 76.680;
        "omega" ::= PyFloat 54.884;
        "M0" ::= PyFloat 50.416 ] ];
  (* Earth *)
  PyDict [
    "id" ::= PyInt 399;
    "name" ::= PyStr "Earth";
    "parent" ::= PyInt 3;
    "j2" ::= PyFloat 1.08262668e-3;
    "r_eq" ::= PyFloat 6378.1366;
    "streamed" ::= PyBool true;
    "GM" ::= PyFloat 398600.435507;
    "canonical_orbit" ::= PyDict [
        "a" ::= PyFloat 149598023.0;
        "e" ::= PyFloat 0.0167;
        "i" ::= PyFloat 0.000;
        "Omega" ::= PyFloat (-11.26064);
        "omega" ::= PyFloat 114.20783;
        "M0" ::= PyFloat 358.617 ] ];
  (* Mars *)
  PyDict [
    "id" ::= PyInt 499;
    "name" ::= PyStr "Mars";
    "parent" ::= PyInt 4;
    "j2" ::= PyFloat 1.96045e-3;
    "r_eq" ::= PyFloat 3396.19;
    "streamed" ::= PyBool true;
    "GM" ::= PyFloat 42828.375214;
    "canonical_orbit" ::= PyDict [
        "a" ::= PyFloat 227939200.0;
        "e" ::= PyFloat 0.0935;
        "i" ::= PyFloat 1.850;
        "Omega" ::= PyFloat 49.558;
        "omega" ::= PyFloat 286.502;
        "M0" ::= PyFloat 19.373 ] ];
  (* Jupiter *)
  PyDict [
    "id" ::= PyInt 599;
    "name" ::= PyStr "Jupiter";
    "parent" ::= PyInt 5;
    "j2" ::= PyFloat 0.014696;
    "r_eq" ::= PyInt 71492;
    "streamed" ::= PyBool true;
    "GM" ::= PyFloat 126686531.9;
    "canonical_orbit" ::= PyDict [
        "a" ::= PyFloat 778570000.0;
        "e" ::= PyFloat 0.0489;
        "i" ::= PyFloat 1.303;
        "Omega" ::= PyFloat 100.464;
        "omega" ::= PyFloat 273.867;
        "M0" ::= PyFloat 20.020 ] ];
  (* Saturn *)
  PyDict [
    "id" ::= PyInt 699;
    "name" ::= PyStr "Saturn";
    "parent" ::= PyInt 6;
    "j2" ::= PyFloat 0.016298;
    "r_eq" ::= PyInt 60268;
    "streamed" ::= PyBool true;
    "GM" ::= PyFloat 37931207.8;
    "canonical_orbit" ::= PyDict [
        "a" ::= PyFloat 1433530000.0;
        "e" ::= PyFloat 0.0565;
        "i" ::= PyFloat 2.485;
        "Omega" ::= PyFloat 113.665;
        "omega" ::= PyFloat 339.392;
        "M0" ::= PyFloat 317.020 ] ];
  (* Uranus *)
  PyDict [
    "id" ::= PyInt 799;
    "name" ::= PyStr "Uranus";
    "parent" ::= PyInt 7;
    "streamed" ::= PyBool true;
    "GM" ::= PyFloat 5793951.3;
    "r_eq" ::= PyFloat 25559.0;
    "canonical_orbit" ::= PyDict [
        "a" ::= PyFloat 2875040000.0;
        "e" ::= PyFloat 0.0463;
        "i" ::= PyFloat 0.773;
        "Omega" ::= PyFloat 74.006;
        "omega" ::= PyFloat 96.998;
        "M0" ::= PyFloat 142.2386 ] ];
  (* Neptune *)
  PyDict [
    "id" ::= PyInt 899;
    "name" ::= PyStr "Neptune";
    "parent" ::= PyInt 8;
    "streamed" ::= PyBool true;
    "GM" ::= PyFloat 6835103.1;
    "r_eq" ::= PyFloat 24764.0;
    "canonical_orbit" ::= PyDict [
        "a" ::= PyFloat 4504450000.0;
        "e" ::= PyFloat 0.0097;
        "i" ::= PyFloat 1.770;
        "Omega" ::= PyFloat 131.784;
        "omega" ::= PyFloat 273.187;
        "M0" ::= PyFloat 256.228 ] ];
  (* Pluto *)
  PyDict [
    "id" ::= PyInt 999;
    "name" ::= PyStr "Pluto";
    "parent" ::= PyInt 9;
    "streamed" ::= PyBool true;
    "GM" ::= PyFloat 869.613817;
    "r_eq" ::= PyFloat 1188.3;
    "canonical_orbit" ::= PyDict [
        "a" ::= PyFloat 5906440628.0;
        "e" ::= PyFloat 0.2488;
        "i" ::= PyFloat 17.16;
        "Omega" ::= PyFloat 110.299;
        "omega" ::= PyFloat 113.834;
        "M0" ::= PyFloat 14.53 ] ];
  (* Moon *)
  PyDict [
    "id" ::= PyInt 301;
    "name" ::= PyStr "Moon";
    "parent" ::= PyInt 3;
    "streamed" ::= PyBool true;
    "GM" ::= PyFloat 4902.800066;
    "r_eq" ::= PyFloat 1737.4;
    "j2" ::= PyFloat 2.032e-4;
    "orientation_quat" ::= PyList [
        PyFloat 0.3186675622944306;
        PyFloat 0.9240892132462319;
        PyFloat 0.19537822808060934;
        PyFloat (-0.0796081572162473) ];
    "pole_ra" ::= PyList [PyFloat 269.9949; PyFloat 0.0031; PyFloat 0.0];
    "pole_dec" ::= PyList [PyFloat 66.5392; PyFloat 0.0130; PyFloat 0.0];
    "pm" ::= PyList [PyFloat 38.3213; PyFloat 13.17635815; PyFloat (-1.4e-12)];
    "canonical_orbit" ::= PyDict [
        "a" ::= PyFloat 384400.0;
        "e" ::= PyFloat 0.0549;
        "i" ::= PyFloat 5.145;
        "Omega" ::= PyFloat 125.08;
        "omega" ::= PyFloat 318.15;
        "M0" ::= PyFloat 115.3654 ] ];
  (* Phobos *)
  PyDict [
    "id" ::= PyInt 401;
    "name" ::= PyStr "Phobos";
    "parent" ::= PyInt 4;
    "streamed" ::= PyBool true;
    "GM" ::= PyFloat 0.0007112;
    "r_eq" ::= PyFloat 11.2667;
    "j2" ::= PyFloat 0.0;
    "orientation_quat" ::= PyList [
        PyFloat 0.6308383566747584;
        PyFloat 0.7115274160209963;
        PyFloat 0.3075094984340903;
        PyFloat 0.034779482043131506 ];
    "pole_ra" ::= PyList [PyFloat 317.67071657; PyFloat (-0.10844326); PyFloat 0.0];
    "pole_dec" ::= PyList [PyFloat 52.88627266; PyFloat (-0.06134706); PyFloat 0.0];
    "pm" ::= PyList [PyFloat 35.18774440; PyFloat 1128.84475928; PyFloat 0.0];
    "canonical_orbit" ::= PyDict [
        "a" ::= PyFloat 9376.0;
        "e" ::= PyFloat 0.0151;
        "i" ::= PyFloat 1.075;
        "Omega" ::= PyFloat 49.2;
        "omega" ::= PyFloat 150.057;
        "M0" ::= PyFloat 177.4 ] ];
  (* Deimos *)
  PyDict [
    "id" ::= PyInt 402;
    "name" ::= PyStr "Deimos";
    "parent" ::= PyInt 4;
    "streamed" ::= PyBool true;
    "GM" ::= PyFloat 0.0000985;
    "r_eq" ::= PyFloat 6.2;
    "j2" ::= PyFloat 0.0;
    "orientation_quat" ::= PyList [
        PyFloat 0.8454450655355805;
        PyFloat 0.42626836332308543;
        PyFloat 0.3119031808153065;
        PyFloat (-0.07895776965372207) ];
    "pole_ra" ::= PyList [PyFloat 316.65705808; PyFloat (-0.10518014); PyFloat 0.0];
    "pole_dec" ::= PyList [PyFloat 53.50992033; PyFloat (-0.05979094); PyFloat 0.0];
    "pm" ::= PyList [PyFloat 79.39932954; PyFloat 285.16188899; PyFloat 0.0];
    "canonical_orbit" ::= PyDict [
        "a" ::= PyFloat 23463.2;
        "e" ::= PyFloat 0.00033;
        "i" ::= PyFloat 1.788;
        "Omega" ::= PyFloat 316.65;
        "omega" ::= PyFloat 260.729;
        "M0" ::= PyFloat 53.2 ] ];
  (* Io *)
  PyDict [
    "id" ::= PyInt 501;
    "name" ::= PyStr "Io";
    "parent" ::= PyInt 5;
    "streamed" ::= PyBool true;
    "GM" ::= PyFloat 595.6;
    "r_eq" ::= PyFloat 1821.6;
    "j2" ::= PyFloat 0.0;
    "orientation_quat" ::= PyList [
        PyFloat (-0.9627925031965429);
        PyFloat 0.15620667287302778;
        PyFloat 0.043054086617703644;
        PyFloat 0.21627856288589808 ];
    "pole_ra" ::= PyList [PyFloat 268.05; PyFloat (-0.009); PyFloat 0.0];
    "pole_dec" ::= PyList [PyFloat 64.50; PyFloat 0.003; PyFloat 0.0];
    "pm" ::= PyList [PyFloat 200.39; PyFloat 203.4889538; PyFloat 0.0];
    "canonical_orbit" ::= PyDict [
        "a" ::= PyFloat 421700.0;
        "e" ::= PyFloat 0.0041;
        "i" ::= PyFloat 0.036;
        "Omega" ::= PyFloat 43.977;
        "omega" ::= PyFloat 84.129;
        "M0" ::= PyFloat 171.016 ] ];
  (* Europa *)
  PyDict [
    "id" ::= PyInt 502;
    "name" ::= PyStr "Europa";
    "parent" ::= PyInt 5;
    "streamed" ::= PyBool true;
    "GM" ::= PyFloat 320.0;
    "r_eq" ::= PyFloat 1560.8;
    "j2" ::= PyFloat 0.0;
    "orientation_quat" ::= PyList [
        PyFloat 0.2862225966304867;
        PyFloat 0.9333206784518087;
        PyFloat 0.20494819207692228;
        PyFloat (-0.07060718742988059) ];
    "pole_ra" ::= PyList [PyFloat 268.08; PyFloat (-0.009); PyFloat 0.0];
    "pole_dec" ::= PyList [PyFloat 64.51; PyFloat 0.003; PyFloat 0.0];
    "pm" ::= PyList [PyFloat 36.022; PyFloat 101.3747235; PyFloat 0.0];
    "canonical_orbit" ::= PyDict [
        "a" ::= PyFloat 671034.0;
        "e" ::= PyFloat 0.009;
        "i" ::= PyFloat 0.465;
        "Omega" ::= PyFloat 219.106;
        "omega" ::= PyFloat 88.970;
        "M0" ::= PyFloat 29.298 ] ];
  (* Ganymede *)
  PyDict [
    "id" ::= PyInt 503;
    "name" ::= PyStr "Ganymede";
    "parent" ::= PyInt 5;
    "streamed" ::= PyBool true;
    "GM" ::= PyFloat 988.7;
    "r_eq" ::= PyFloat 2634.1;
    "j2" ::= PyFloat 0.0;
    "orientation_quat" ::= PyList [
        PyFloat 0.3518206607032618;
        PyFloat 0.9095464313346583;
        PyFloat 0.2041922883141911;
        PyFloat (-0.08516467191108519) ];
    "pole_ra" ::= PyList [PyFloat 268.20; PyFloat (-0.009); PyFloat 0.0];
    "pole_dec" ::= PyList [PyFloat 64.57; PyFloat 0.003; PyFloat 0.0];
    "pm" ::= PyList [PyFloat 44.064; PyFloat 50.3176081; PyFloat 0.0];
    "canonical_orbit" ::= PyDict [
        "a" ::= PyFloat 1070412.0;
        "e" ::= PyFloat 0.0013;
        "i" ::= PyFloat 0.177;
        "Omega" ::= PyFloat 63.552;
        "omega" ::= PyFloat 192.417;
        "M0" ::= PyFloat 192.417 ] ];
  (* Callisto *)
  PyDict [
    "id" ::= PyInt 504;
    "name" ::= PyStr "Callisto";
    "parent" ::= PyInt 5;
    "streamed" ::= PyBool true;
    "GM" ::= PyFloat 717.0;
    "r_eq" ::= PyFloat 2410.3;
    "j2" ::= PyFloat 0.0;
    "orientation_quat" ::= PyList [
        PyFloat (-0.7572824467695023);
        PyFloat 0.6152217280724471;
        PyFloat 0.14340098285830222;
        PyFloat 0.16571565779255987 ];
    "pole_ra" ::= PyList [PyFloat 268.72; PyFloat (-0.009); PyFloat 0.0];
    "pole_dec" ::= PyList [PyFloat 64.83; PyFloat 0.003; PyFloat 0.0];
    "pm" ::= PyList [PyFloat 259.51; PyFloat 21.5710715; PyFloat 0.0];
    "canonical_orbit" ::= PyDict [
        "a" ::= PyFloat 1882709.0;
        "e" ::= PyFloat 0.007;
        "i" ::= PyFloat 0.192;
        "Omega" ::= PyFloat 298.848;
        "omega" ::= PyFloat 52.643;
        "M0" ::= PyFloat 52.643 ] ];
  (* Mimas *)
  PyDict [
    "id" ::= PyInt 601;
    "name" ::= PyStr "Mimas";
    "parent" ::= PyInt 6;
    "streamed" ::= PyBool true;
    "GM" ::= PyFloat 2.502;
    "r_eq" ::= PyFloat 198.2;
    "j2" ::= PyFloat 0.0;
    "orientation_quat" ::= PyList [
        PyFloat 0.9230995744431174;
        PyFloat 0.38212717482503544;
        PyFloat 0.019096998939105683;
        PyFloat 0.0387466457218241 ];
    "pole_ra" ::= PyList [PyFloat 40.66; PyFloat (-0.036); PyFloat 0.0];
    "pole_dec" ::= PyList [PyFloat 83.52; PyFloat (-0.004); PyFloat 0.0];
    "pm" ::= PyList [PyFloat 333.46; PyFloat 381.9945550; PyFloat 0.0];
    "canonical_orbit" ::= PyDict [
        "a" ::= PyFloat 185539.0;
        "e" ::= PyFloat 0.0196;
        "i" ::= PyFloat 1.574;
        "Omega" ::= PyFloat 66.2;
        "omega" ::= PyFloat 160.4;
        "M0" ::= PyFloat 275.3 ] ];
  (* Enceladus *)
  PyDict [
    "id" ::= PyInt 602;
    "name" ::= PyStr "Enceladus";
    "parent" ::= PyInt 6;
    "streamed" ::= PyBool true;
    "GM" ::= PyFloat 7.210;
    "r_eq" ::= PyFloat 252.1;
    "j2" ::= PyFloat 0.0;
    "orientation_quat" ::= PyList [
        PyFloat 0.9288664636898875;
        PyFloat 0.36607751623426327;
        PyFloat 0.0263856632356688;
        PyFloat 0.049981411700848105 ];
    "pole_ra" ::= PyList [PyFloat 40.66; PyFloat (-0.036); PyFloat 0.0];
    "pole_dec" ::= PyList [PyFloat 83.52; PyFloat (-0.004); PyFloat 0.0];
    "pm" ::= PyList [PyFloat 6.32; PyFloat 262.7318996; PyFloat 0.0];
    "canonical_orbit" ::= PyDict [
        "a" ::= PyFloat 238042.0;
        "e" ::= PyFloat 0.0047;
        "i" ::= PyFloat 0.009;
        "Omega" ::= PyFloat 0.0;
        "omega" ::= PyFloat 119.5;
        "M0" ::= PyFloat 57.0 ] ];
  (* Tethys *)
  PyDict [
    "id" ::= PyInt 603;
    "name" ::= PyStr "Tethys";
    "parent" ::= PyInt 6;
    "streamed" ::= PyBool true;
    "GM" ::= PyFloat 41.21;
    "r_eq" ::= PyFloat 531.1;
    "j2" ::= PyFloat 0.0;
    "orientation_quat" ::= PyList [
        PyFloat 0.9318940517031924;
        PyFloat 0.3575191144733003;
        PyFloat 0.03662851343840426;
        PyFloat 0.04911121246444622 ];
    "pole_ra" ::= PyList [PyFloat 40.66; PyFloat (-0.036); PyFloat 0.0];
    "pole_dec" ::= PyList [PyFloat 83.52; PyFloat (-0.004); PyFloat 0.0];
    "pm" ::= PyList [PyFloat 8.95; PyFloat 190.6979085; PyFloat 0.0];
    "canonical_orbit" ::= PyDict [
        "a" ::= PyFloat 294672.0;
        "e" ::= PyFloat 0.0001;
        "i" ::= PyFloat 1.091;
        "Omega" ::= PyFloat 273.0;
        "omega" ::= PyFloat 335.3;
        "M0" ::= PyFloat 0.0 ] ];
  (* Dione *)
  PyDict [
    "id" ::= PyInt 604;
    "name" ::= PyStr "Dione";
    "parent" ::= PyInt 6;
    "streamed" ::= PyBool true;
    "GM" ::= PyFloat 73.116;
    "r_eq" ::= PyFloat 561.4;
    "j2" ::= PyFloat 0.0;
    "orientation_quat" ::= PyList [
        PyFloat 0.8983481011005575;
        PyFloat 0.43563326836804733;
        PyFloat 0.022509571322388757;
        PyFloat 0.05184268452615175 ];
    "pole_ra" ::= PyList [PyFloat 40.66; PyFloat (-0.036); PyFloat 0.0];
    "pole_dec" ::= PyList [PyFloat 83.52; PyFloat (-0.004); PyFloat 0.0];
    "pm" ::= PyList [PyFloat 357.6; PyFloat 131.5349316; PyFloat 0.0];
    "canonical_orbit" ::= PyDict [
        "a" ::= PyFloat 377415.0;
        "e" ::= PyFloat 0.0022;
        "i" ::= PyFloat 0.028;
        "Omega" ::= PyFloat 0.0;
        "omega" ::= PyFloat 116.0;
        "M0" ::= PyFloat 212.0 ] ];
  (* Rhea *)
  PyDict [
    "id" ::= PyInt 605;
    "name" ::= PyStr "Rhea";
    "parent" ::= PyInt 6;
    "streamed" ::= PyBool true;
    "GM" ::= PyFloat 153.94;
    "r_eq" ::= PyFloat 763.8;
    "j2" ::= PyFloat 0.0;
    "orientation_quat" ::= PyList [
        PyFloat 0.04819756263171842;
        PyFloat 0.9970816099735007;
        PyFloat (-0.03548242614950518);
        PyFloat 0.04739467737582312 ];
    "pole_ra" ::= PyList [PyFloat 40.38; PyFloat (-0.036); PyFloat 0.0];
    "pole_dec" ::= PyList [PyFloat 83.55; PyFloat (-0.004); PyFloat 0.0];
    "pm" ::= PyList [PyFloat 235.16; PyFloat 79.6900478; PyFloat 0.0];
    "canonical_orbit" ::= PyDict [
        "a" ::= PyFloat 527108.0;
        "e" ::= PyFloat 0.001;
        "i" ::= PyFloat 0.345;
        "Omega" ::= PyFloat 133.7;
        "omega" ::= PyFloat 44.3;
        "M0" ::= PyFloat 31.5 ] ];
  (* Titan *)
  PyDict [
    "id" ::= PyInt 606;
    "name" ::= PyStr "Titan";
    "parent" ::= PyInt 6;
    "streamed" ::= PyBool true;
    "GM" ::= PyFloat 8978.0;
    "r_eq" ::= PyFloat 2574.7;
    "j2" ::= PyFloat 0.0;
    "orientation_quat" ::= PyList [
        PyFloat (-0.3734396870113086);
        PyFloat 0.9258818003502802;
        PyFloat (-0.05035007964612972);
        PyFloat 0.027396376122554734 ];
    "pole_ra" ::= PyList [PyFloat 39.4827; PyFloat 0.0; PyFloat 0.0];
    "pole_dec" ::= PyList [PyFloat 83.4279; PyFloat 0.0; PyFloat 0.0];
    "pm" ::= PyList [PyFloat 186.5855; PyFloat 22.5769768; PyFloat 0.0];
    "canonical_orbit" ::= PyDict [
        "a" ::= PyFloat 1221870.0;
        "e" ::= PyFloat 0.0288;
        "i" ::= PyFloat 0.34854;
        "Omega" ::= PyFloat 78.6;
        "omega" ::= PyFloat 78.3;
        "M0" ::= PyFloat 11.7 ] ];
  (* Iapetus *)
  PyDict [
    "id" ::= PyInt 608;
    "name" ::= PyStr "Iapetus";
    "parent" ::= PyInt 6;
    "streamed" ::= PyBool true;
    "GM" ::= PyFloat 120.5;
    "r_eq" ::= PyFloat 734.5;
    "j2" ::= PyFloat 0.0;
    "orientation_quat" ::= PyList [
        PyFloat 0.3662745576368781;
        PyFloat 0.9213433421007585;
        PyFloat 0.11660036388932458;
        PyFloat 0.05808398691026053 ];
    "pole_ra" ::= PyList [PyFloat 318.16; PyFloat (-3.949); PyFloat 0.0];
    "pole_dec" ::= PyList [PyFloat 75.03; PyFloat (-1.143); PyFloat 0.0];
    "pm" ::= PyList [PyFloat 355.2; PyFloat 4.5379572; PyFloat 0.0];
    "canonical_orbit" ::= PyDict [
        "a" ::= PyFloat 3560820.0;
        "e" ::= PyFloat 0.0283;
        "i" ::= PyFloat 15.47;
        "Omega" ::= PyFloat 86.5;
        "omega" ::= PyFloat 254.5;
        "M0" ::= PyFloat 74.8 ] ];
  (* Ariel *)
  PyDict [
    "id" ::= PyInt 701;
    "name" ::= PyStr "Ariel";
    "parent" ::= PyInt 7;
    "streamed" ::= PyBool true;
    "GM" ::= PyFloat 86.0;
    "r_eq" ::= PyFloat 578.9;
    "j2" ::= PyFloat 0.0;
    "orientation_quat" ::= PyList [
        PyFloat 0.5781932973945025;
        PyFloat 0.191729684226664;
        PyFloat 0.07649565212061894;
        PyFloat (-0.7893545808070397) ];
    "pole_ra" ::= PyList [PyFloat 257.43; PyFloat 0.0; PyFloat 0.0];
    "pole_dec" ::= PyList [PyFloat (-15.10); PyFloat 0.0; PyFloat 0.0];
    "pm" ::= PyList [PyFloat 156.22; PyFloat (-142.8356681); PyFloat 0.0];
    "canonical_orbit" ::= PyDict [
        "a" ::= PyFloat 190900.0;
        "e" ::= PyFloat 0.001;
        "i" ::= PyFloat 0.0;
        "Omega" ::= PyFloat 0.0;
        "omega" ::= PyFloat 83.3;
        "M0" ::= PyFloat 119.8 ] ];
  (* Umbriel *)
  PyDict [
    "id" ::= PyInt 702;
    "name" ::= PyStr "Umbriel";
    "parent" ::= PyInt 7;
    "streamed" ::= PyBool true;
    "GM" ::= PyFloat 81.5;
    "r_eq" ::= PyFloat 584.7;
    "j2" ::= PyFloat 0.0;
    "orientation_quat" ::= PyList [
        PyFloat 0.4501417420706476;
        PyFloat 0.4100905667125323;
        PyFloat 0.39181002197012754;
        PyFloat (-0.6896977931114213) ];
    "pole_ra" ::= PyList [PyFloat 257.43; PyFloat 0.0; PyFloat 0.0];
    "pole_dec" ::= PyList [PyFloat (-15.10); PyFloat 0.0; PyFloat 0.0];
    "pm" ::= PyList [PyFloat 108.05; PyFloat (-86.8688923); PyFloat 0.0];
    "canonical_orbit" ::= PyDict [
        "a" ::= PyFloat 266000.0;
        "e" ::= PyFloat 0.004;
        "i" ::= PyFloat 0.1;
        "Omega" ::= PyFloat 195.5;
        "omega" ::= PyFloat 157.5;
        "M0" ::= PyFloat 258.3 ] ];
  (* Titania *)
  PyDict [
    "id" ::= PyInt 703;
    "name" ::= PyStr "Titania";
    "parent" ::= PyInt 7;
    "streamed" ::= PyBool true;
    "GM" ::= PyFloat 228.2;
    "r_eq" ::= PyFloat 788.9;
    "j2" ::= PyFloat 0.0;
    "orientation_quat" ::= PyList [
        PyFloat 0.32791612117152835;
        PyFloat 0.5142453564688234;
        PyFloat 0.5585107863781351;
        PyFloat (-0.5622174244234606) ];
    "pole_ra" ::= PyList [PyFloat 257.43; PyFloat 0.0; PyFloat 0.0];
    "pole_dec" ::= PyList [PyFloat (-15.10); PyFloat 0.0; PyFloat 0.0];
    "pm" ::= PyList [PyFloat 77.74; PyFloat (-41.3514316); PyFloat 0.0];
    "canonical_orbit" ::= PyDict [
        "a" ::= PyFloat 436300.0;
        "e" ::= PyFloat 0.001;
        "i" ::= PyFloat 0.1;
        "Omega" ::= PyFloat 26.4;
        "omega" ::= PyFloat 202.0;
        "M0" ::= PyFloat 53.2 ] ];
  (* Oberon *)
  PyDict [
    "id" ::= PyInt 704;
    "name" ::= PyStr "Oberon";
    "parent" ::= PyInt 7;
    "streamed" ::= PyBool true;
    "GM" ::= PyFloat 192.4;
    "r_eq" ::= PyFloat 761.4;
    "j2" ::= PyFloat 0.0;
    "orientation_quat" ::= PyList [
        PyFloat (-0.03179395978929699);
        PyFloat 0.6070279410001568;
        PyFloat 0.7826245002334988;
        PyFloat (-0.1341831382860504) ];
    "pole_ra" ::= PyList [PyFloat 257.43; PyFloat 0.0; PyFloat 0.0];
    "pole_dec" ::= PyList [PyFloat (-15.10); PyFloat 0.0; PyFloat 0.0];
    "pm" ::= PyList [PyFloat 6.77; PyFloat (-26.7394932); PyFloat 0.0];
    "canonical_orbit" ::= PyDict [
        "a" ::= PyFloat 583400.0;
        "e" ::= PyFloat 0.001;
        "i" ::= PyFloat 0.1;
        "Omega" ::= PyFloat 30.5;
        "omega" ::= PyFloat 182.4;
        "M0" ::= PyFloat 139.7 ] ];
  (* Miranda *)
  PyDict [
    "id" ::= PyInt 705;
    "name" ::= PyStr "Miranda";
    "parent" ::= PyInt 7;
    "streamed" ::= PyBool true;
    "GM" ::= PyFloat 4.4;
    "r_eq" ::= PyFloat 235.8;
    "j2" ::= PyFloat 0.0;
    "orientation_quat" ::= PyList [
        PyFloat 0.1269439866585823;
        PyFloat 0.5885443922397523;
        PyFloat 0.7482859130952207;
        PyFloat (-0.27851196541193374) ];
    "pole_ra" ::= PyList [PyFloat 257.43; PyFloat 0.0; PyFloat 0.0];
    "pole_dec" ::= PyList [PyFloat (-15.08); PyFloat 0.0; PyFloat 0.0];
    "pm" ::= PyList [PyFloat 30.70; PyFloat (-254.6906892); PyFloat 0.0];
    "canonical_orbit" ::= PyDict [
        "a" ::= PyFloat 129900.0;
        "e" ::= PyFloat 0.001;
        "i" ::= PyFloat 4.4;
        "Omega" ::= PyFloat 100.7;
        "omega" ::= PyFloat 155.6;
        "M0" ::= PyFloat 72.4 ] ];
  (* Triton *)
  PyDict [
    "id" ::= PyInt 801;
    "name" ::= PyStr "Triton";
    "parent" ::= PyInt 8;
    "streamed" ::= PyBool true;
    "GM" ::= PyFloat 1427.6;
    "r_eq" ::= PyFloat 1353.4;
    "j2" ::= PyFloat 0.0;
    "orientation_quat" ::= PyList [
        PyFloat (-0.24357406144561938);
        PyFloat 0.78368286204414;
        PyFloat 0.39896516331806564;
        PyFloat 0.4090716890567964 ];
    "pole_ra" ::= PyList [PyFloat 299.36; PyFloat 0.0; PyFloat 0.0];
    "pole_dec" ::= PyList [PyFloat 41.17; PyFloat 0.0; PyFloat 0.0];
    "pm" ::= PyList [PyFloat 296.53; PyFloat (-61.2572637); PyFloat 0.0];
    "canonical_orbit" ::= PyDict [
        "a" ::= PyFloat 354800.0;
        "e" ::= PyFloat 0.000;
        "i" ::= PyFloat 157.3;
        "Omega" ::= PyFloat 178.1;
        "omega" ::= PyFloat 0.0;
        "M0" ::= PyFloat 63.0 ] ];
  (* Proteus *)
  PyDict [
    "id" ::= PyInt 802;
    "name" ::= PyStr "Proteus";
    "parent" ::= PyInt 8;
    "streamed" ::= PyBool true;
    "GM" ::= PyFloat 0.105;
    "r_eq" ::= PyInt 210;
    "j2" ::= PyFloat 0.0;
    "orientation_quat" ::= PyList [
        PyFloat 0.8027893751159789;
        PyFloat 0.4391895681536065;
        PyFloat 0.3416179806521816;
        PyFloat (-0.2143336131386546) ];
    "canonical_orbit" ::= PyDict [
        "a" ::= PyFloat 117600.0;
        "e" ::= PyFloat 0.000;
        "i" ::= PyFloat 0.0;
        "Omega" ::= PyFloat 0.0;
        "omega" ::= PyFloat 0.0;
        "M0" ::= PyFloat 276.8 ] ];
  (* Nereid *)
  PyDict [
    "id" ::= PyInt 803;
    "name" ::= PyStr "Nereid";
    "parent" ::= PyInt 8;
    "streamed" ::= PyBool true;
    "GM" ::= PyFloat 0.021;
    "r_eq" ::= PyInt 170;
    "j2" ::= PyFloat 0.0;
    "orientation_quat" ::= PyList [PyFloat 0.0; PyFloat 0.0; PyFloat 0.0; PyFloat 1.0];
    "pole_ra" ::= PyList [PyFloat 299.36; PyFloat 0.0; PyFloat 0.0];
    "pole_dec" ::= PyList [PyFloat 43.36; PyFloat 0.0; PyFloat 0.0];
    "pm" ::= PyList [PyFloat 254.06; PyFloat 1222.8441209; PyFloat 0.0];
    "canonical_orbit" ::= PyDict [
        "a" ::= PyFloat 5513900.0;
        "e" ::= PyFloat 0.751;
        "i" ::= PyFloat 5.1;
        "Omega" ::= PyFloat 319.5;
        "omega" ::= PyFloat 296.8;
        "M0" ::= PyFloat 318.5 ] ];
  (* Charon *)
  PyDict [
    "id" ::= PyInt 901;
    "name" ::= PyStr "Charon";
    "parent" ::= PyInt 9;
    "streamed" ::= PyBool true;
    "GM" ::= PyFloat 101.4;
    "r_eq" ::= PyFloat 606.0;
    "j2" ::= PyFloat 0.0;
    "orientation_quat" ::= PyList [PyFloat 0.7071; PyFloat 0.0; PyFloat 0.7071; PyFloat 0.0];
    "canonical_orbit" ::= PyDict [
        "a" ::= PyFloat 19591.4;
        "e" ::= PyFloat 0.000;
        "i" ::= PyFloat 96.145;
        "Omega" ::= PyFloat 223.046;
        "omega" ::= PyFloat 0.0;
        "M0" ::= PyFloat 0.0 ] ];
  (* Nix *)
  PyDict [
    "id" ::= PyInt 902;
    "name" ::= PyStr "Nix";
    "parent" ::= PyInt 9;
    "streamed" ::= PyBool true;
    "GM" ::= PyFloat 0.003;
    "r_eq" ::= PyFloat 25.0;
    "j2" ::= PyFloat 0.0;
    "orientation_quat" ::= PyList [PyFloat 1.0; PyFloat 0.0; PyFloat 0.0; PyFloat 0.0];
    "canonical_orbit" ::= PyDict [
        "a" ::= PyFloat 48694.0;
        "e" ::= PyFloat 0.002;
        "i" ::= PyFloat 96.2;
        "Omega" ::= PyFloat 223.1;
        "omega" ::= PyFloat 0.0;
        "M0" ::= PyFloat 0.0 ] ];
  (* Hydra *)
  PyDict [
    "id" ::= PyInt 903;
    "name" ::= PyStr "Hydra";
    "parent" ::= PyInt 9;
    "streamed" ::= PyBool true;
    "GM" ::= PyFloat 0.005;
    "r_eq" ::= PyFloat 32.5;
    "j2" ::= PyFloat 0.0;
    "orientation_quat" ::= PyList [PyFloat 1.0; PyFloat 0.0; PyFloat 0.0; PyFloat 0.0];
    "canonical_orbit" ::= PyDict [
        "a" ::= PyFloat 64738.0;
        "e" ::= PyFloat 0.005;
        "i" ::= PyFloat 96.4;
        "Omega" ::= PyFloat 223.2;
        "omega" ::= PyFloat 0.0;
        "M0" ::= PyFloat 0.0 ] ];
  (* Kerberos *)
  PyDict [
    "id" ::= PyInt 904;
    "name" ::= PyStr "Kerberos";
    "parent" ::= PyInt 9;
    "streamed" ::= PyBool true;
    "GM" ::= PyFloat 0.001;
    "r_eq" ::= PyFloat 12.0;
    "j2" ::= PyFloat 0.0;
    "orientation_quat" ::= PyList [PyFloat 1.0; PyFloat 0.0; PyFloat 0.0; PyFloat 0.0];
    "canonical_orbit" ::= PyDict [
        "a" ::= PyFloat 57783.0;
        "e" ::= PyFloat 0.003;
        "i" ::= PyFloat 96.3;
        "Omega" ::= PyFloat 223.15;
        "omega" ::= PyFloat 0.0;
        "M0" ::= PyFloat 0.0 ] ];
  (* Styx *)
  PyDict [
    "id" ::= PyInt 905;
    "name" ::= PyStr "Styx";
    "parent" ::= PyInt 9;
    "streamed" ::= PyBool true;
    "GM" ::= PyFloat 0.0005;
    "r_eq" ::= PyFloat 8.0;
    "j2" ::= PyFloat 0.0;
    "orientation_quat" ::= PyList [PyFloat 1.0; PyFloat 0.0; PyFloat 0.0; PyFloat 0.0];
    "canonical_orbit" ::= PyDict [
        "a" ::= PyFloat 42656.0;
        "e" ::= PyFloat 0.005;
        "i" ::= PyFloat 96.1;
        "Omega" ::= PyFloat 223.0;
        "omega" ::= PyFloat 0.0;
        "M0" ::= PyFloat 0.0 ] ] ].

(** [DEFAULT_BODIES = [body["id"] for body in SOLAR_SYSTEM_BODIES
      if body.get("parent") is not None or body.get("id") == 10]]. *)
Fixpoint DEFAULT_BODIES_comp (bodies : list PyVal) : PyResult (list PyVal) :=
  match bodies with
  | [] => ok []
  | body :: rest =>
      let! parent := py_get body "parent" in
      let! keep :=
        if negb (is_None parent) then ok true
        else (let! i := py_get body "id" in ok (py_eqb i (PyInt 10))) in
      if keep : bool then
        let! i := py_getitem body "id" in
        let! tl := DEFAULT_BODIES_comp rest in
        ok (i :: tl)
      else DEFAULT_BODIES_comp rest
  end.

Definition DEFAULT_BODIES : PyResult (list PyVal) :=
  DEFAULT_BODIES_comp SOLAR_SYSTEM_BODIES.

(** [PARENT_MAP = {body["id"]: body["parent"] for body in
      SOLAR_SYSTEM_BODIES if body["parent"] is not None}], the dict
    being filled left to right. *)
Fixpoint PARENT_MAP_comp (acc : list (PyVal * PyVal)) (bodies : list PyVal)
  : PyResult (list (PyVal * PyVal)) :=
  match bodies with
  | [] => ok acc
  | body :: rest =>
      let! parent := py_getitem body "parent" in
      if negb (is_None parent) then
        let! k := py_getitem body "id" in
        let! v := py_getitem body "parent" in
        let! acc' := dict_setitem acc k v in
        PARENT_MAP_comp acc' rest
      else PARENT_MAP_comp acc rest
  end.

Definition PARENT_MAP : PyResult (list (PyVal * PyVal)) :=
  PARENT_MAP_comp [] SOLAR_SYSTEM_BODIES.

Definition REQUIRED_KERNELS : list string :=
  [ "naif0013.tls";
    "de440.bsp";
    "pck00011_n006.tpc";
    "gm_de440.tpc";
    "jup230.bsp";
    "plu058.bsp";
    "MAR097_030101_300101_V0001.BSP";
    "saturn_majors_1900_2100.bsp" ].

Definition SECONDS_PER_DAY : PyVal := PyFloat 86400.0.
Definition DEFAULT_EPOCH : PyVal := PyStr "2025-05-11T00:00:00".
Definition DEFAULT_DRAG_CUTOFF : PyVal := PyFloat 500e3.
Definition DEFAULT_FRAME : PyVal := PyStr "ECLIPJ2000".

(** ** Reading the table

    Typed projections used to state the properties of the table: the
    value stored under a key of a record, and its content when it is an
    [int]. *)

Definition field (body : PyVal) (k : string) : option PyVal :=
  match body with
  | PyDict d => dict_lookup d (PyStr k)
  | _ => None
  end.

Definition as_int (v : PyVal) : option Z :=
  match v with
  | PyInt z => Some z
  | _ => None
  end.

Definition int_field (body : PyVal) (k : string) : option Z :=
  field body k ≫= as_int.

(** The ids of the records of a table, in order. *)
Definition ids_of (bodies : list PyVal) : list Z :=
  omap (fun body => int_field body "id") bodies.

(** [body["parent"] is None], the key being present. *)
Definition parent_is_None (body : PyVal) : bool :=
  match field body "parent" with
  | Some PyNone => true
  | _ => false
  end.

(** [body["parent"] == p] for an id [p]. *)
Definition parent_is (p : Z) (body : PyVal) : bool :=
  match int_field body "parent" with
  | Some q => q =? p
  | None => false
  end.

(** [PARENT_MAP.get(i)] as an id. *)
Definition PARENT_MAP_get (i : Z) : option Z :=
  match PARENT_MAP with
  | inr d => dict_lookup d (PyInt i) ≫= as_int
  | inl _ => None
  end.

(** One step up the hierarchy. *)
Definition parent_link (i p : Z) : Prop := PARENT_MAP_get i = Some p.

(** The chain of parent links from [i] up to a body without an entry in
    [PARENT_MAP]; [None] when [fuel] links do not reach one. *)
Fixpoint chain_up (fuel : nat) (i : Z) : option (list Z) :=
  match PARENT_MAP_get i with
  | None => Some [i]
  | Some p =>
      match fuel with
      | O => None
      | S fuel' => cons i <$> chain_up fuel' p
      end
  end.

(** [chain i j l]: [l] lists the bodies met when following parent links
    from [i] up to [j], both included. *)
Inductive chain : Z -> Z -> list Z -> Prop :=
  | chain_here i : chain i i [i]
  | chain_up_step i p j l :
      parent_link i p -> chain p j l -> chain i j (i :: l).

(** Number of bodies on the chain from a body up to its top. *)
Definition depth (i : Z) : nat :=
  match chain_up (length SOLAR_SYSTEM_BODIES) i with
  | Some l => length l
  | None => 0
  end.

(** ** Decision procedures on the table

    Boolean checks of one record against the table, evaluated on every
    record by the proofs below. *)

(** The parent of [body] is [None] or the id of a record of [bodies]. *)
Definition parent_known (bodies : list PyVal) (body : PyVal) : bool :=
  match field body "parent" with
  | Some PyNone => true
  | Some (PyInt p) => bool_decide (p ∈ ids_of bodies)
  | _ => false
  end.

(** The chain of [body] ends at the root, repeats no body and is no
    longer than the table. *)
Definition reaches_root (body : PyVal) : bool :=
  match int_field body "id" with
  | Some i =>
      match chain_up (length SOLAR_SYSTEM_BODIES) i with
      | Some l =>
          bool_decide (last l = Some 0) && bool_decide (NoDup l)
          && bool_decide (length l <= length SOLAR_SYSTEM_BODIES)%nat
      | None => false
      end
  | None => false
  end.

(** A record with an id and a parent id is an entry of [PARENT_MAP]. *)
Definition linked_in_table (body : PyVal) : bool :=
  match field body "id", field body "parent" with
  | Some (PyInt i), Some (PyInt p) => bool_decide (PARENT_MAP_get i = Some p)
  | _, _ => true
  end.

(** Some record of the table has id [i] and parent [p]. *)
Definition has_record (i p : Z) : bool :=
  existsb (fun body =>
             bool_decide (int_field body "id" = Some i)
             && bool_decide (int_field body "parent" = Some p))
          SOLAR_SYSTEM_BODIES.

(** The [id] entry of each record, in order. *)
Definition id_fields (bodies : list PyVal) : list (option Z) :=
  map (fun body => int_field body "id") bodies.

(** ["canonical_orbit" not in body]. *)
Definition lacks_orbit (body : PyVal) : bool :=
  negb (has_key body "canonical_orbit").

(** A record eligible for fallback derivation: it has no
    [canonical_orbit] and is not the root. *)
Definition fallback_eligible (body : PyVal) : bool :=
  lacks_orbit body && negb (parent_is_None body).

(** [body["streamed"] is v] for a boolean [v]. *)
Definition streamed_is (v : bool) (body : PyVal) : bool :=
  match field body "streamed" with
  | Some (PyBool b) => Bool.eqb b v
  | _ => false
  end.

(** The elements [a] and [e] of the [canonical_orbit] of [body], when it
    has one, are floats with [a > 0] and [0 <= e < 1]. *)
Definition orbit_ok (body : PyVal) : bool :=
  match field body "canonical_orbit" with
  | None => true
  | Some orbit =>
      match field orbit "a", field orbit "e" with
      | Some (PyFloat a), Some (PyFloat e) =>
          ((0 <? a) && (0 <=? e) && (e <? 1))%float
      | _, _ => false
      end
  end.

(** The eccentricity of [body], when it has one, is at most [bound]. *)
Definition eccentricity_le (bound : float) (body : PyVal) : bool :=
  match field body "canonical_orbit" with
  | None => true
  | Some orbit =>
      match field orbit "e" with
      | Some (PyFloat e) => (e <=? bound)%float
      | _ => false
      end
  end.

(** The comprehension of [DEFAULT_BODIES] without its second disjunct:
    [[body["id"] for body in bodies if body.get("parent") is not None]]. *)
Fixpoint with_parent_comp (bodies : list PyVal) : PyResult (list PyVal) :=
  match bodies with
  | [] => ok []
  | body :: rest =>
      let! parent := py_get body "parent" in
      if negb (is_None parent) then
        let! i := py_getitem body "id" in
        let! tl := with_parent_comp rest in
        ok (i :: tl)
      else with_parent_comp rest
  end.

(** The shape [YYYY-MM-DDTHH:MM:SS] of an ISO-8601 timestamp. *)
Definition is_digit (c : Ascii.ascii) : bool :=
  let n := Ascii.nat_of_ascii c in ((48 <=? n) && (n <=? 57))%nat.

Definition iso8601_shape (s : string) : bool :=
  match list_ascii_of_string s with
  | [y1; y2; y3; y4; d1; m1; m2; d2; a1; a2; t; h1; h2; c1; n1; n2; c2; s1; s2] =>
      forallb is_digit [y1; y2; y3; y4; m1; m2; a1; a2; h1; h2; n1; n2; s1; s2]
      && forallb (Ascii.eqb "-"%char) [d1; d2]
      && Ascii.eqb "T"%char t
      && forallb (Ascii.eqb ":"%char) [c1; c2]
  | _ => false
  end.

(** The entries [PARENT_MAP] evaluates to (see [PARENT_MAP_eval]). *)
Definition parent_pairs : list (Z * Z) :=
  [ (10, 0); (1, 0); (2, 0); (3, 0); (4, 0); (5, 0); (6, 0); (7, 0);
    (8, 0); (9, 0); (199, 1); (299, 2); (399, 3); (499, 4); (599, 5);
    (699, 6); (799, 7); (899, 8); (999, 9); (301, 3); (401, 4); (402, 4);
    (501, 5); (502, 5); (503, 5); (504, 5); (601, 6); (602, 6); (603, 6);
    (604, 6); (605, 6); (606, 6); (608, 6); (701, 7); (702, 7); (703, 7);
    (704, 7); (705, 7); (801, 8); (802, 8); (803, 8); (901, 9); (902, 9);
    (903, 9); (904, 9); (905, 9) ].

Definition int_entry (kv : Z * Z) : PyVal * PyVal :=
  (PyInt kv.1, PyInt kv.2).

(** ** Reading a record as the comprehensions do *)

Definition is_dict (v : PyVal) : bool :=
  match v with
  | PyDict _ => true
  | _ => false
  end.

(** [body.get("parent") is not None]. *)
Definition has_parent (body : PyVal) : bool :=
  match field body "parent" with
  | Some v => negb (is_None v)
  | None => false
  end.

(** [body.get("id") == 10]. *)
Definition is_10 (body : PyVal) : bool :=
  match field body "id" with
  | Some i => py_eqb i (PyInt 10)
  | None => false
  end.

(** The filter of [DEFAULT_BODIES]. *)
Definition listed (body : PyVal) : bool := has_parent body || is_10 body.

(** [DEFAULT_BODIES] processes [body] without raising, and the exception
    it raises otherwise. *)
Definition DEFAULT_BODIES_accepts (body : PyVal) : bool :=
  is_dict body && (negb (listed body) || has_key body "id").

Definition DEFAULT_BODIES_error (body : PyVal) : PyExc :=
  if is_dict body then KeyError (PyStr "id") else AttributeError.

(** [PARENT_MAP] processes [body] without raising, and the exception it
    raises otherwise. *)
Definition PARENT_MAP_accepts (body : PyVal) : bool :=
  match field body "parent" with
  | None => false
  | Some v =>
      is_None v ||
      match field body "id" with
      | Some k => hashable k
      | None => false
      end
  end.

Definition PARENT_MAP_error (body : PyVal) : PyExc :=
  match body with
  | PyDict d =>
      match dict_lookup d (PyStr "parent") with
      | None => KeyError (PyStr "parent")
      | Some _ =>
          match dict_lookup d (PyStr "id") with
          | None => KeyError (PyStr "id")
          | Some _ => TypeError
          end
      end
  | _ => TypeError
  end.

(** [acc[body["id"]] = body["parent"]]. *)
Definition store_record (acc : list (PyVal * PyVal)) (body : PyVal)
  : list (PyVal * PyVal) :=
  match field body "id", field body "parent" with
  | Some k, Some v => dict_store acc k v
  | _, _ => acc
  end.


(** The parent stored for the id [k] by the last record of the table
    that has this id and a parent. *)
Fixpoint last_parent (k : Z) (bodies : list PyVal) : option PyVal :=
  match bodies with
  | [] => None
  | body :: rest =>
      match last_parent k rest with
      | Some v => Some v
      | None =>
          if has_parent body && bool_decide (int_field body "id" = Some k)
          then field body "parent"
          else None
      end
  end.

(** Every record with a parent has an [int] id. *)
Definition int_id_if_parent (body : PyVal) : bool :=
  negb (has_parent body) || bool_decide (is_Some (int_field body "id")).

(** The parent the NAIF numbering gives the id [i]: none for 0, the
    Solar System Barycenter for the ids below 100, and the barycenter
    [i / 100] of its system for a planet or a moon. *)
Definition naif_parent (i : Z) : option Z :=
  if i =? 0 then None
  else if i <? 100 then Some 0
  else Some (i / 100).

(** The first record of the table with id [i]. *)
Definition record_of (i : Z) : option PyVal :=
  List.find (fun body => bool_decide (int_field body "id" = Some i))
    SOLAR_SYSTEM_BODIES.

(** [body] has the parent [naif_parent] gives its id, in the table and
    in [PARENT_MAP]. *)
Definition follows_naif (body : PyVal) : bool :=
  match int_field body "id" with
  | Some i =>
      bool_decide (PARENT_MAP_get i = naif_parent i)
      && match field body "parent", naif_parent i with
         | Some PyNone, None => true
         | Some (PyInt p), Some q => p =? q
         | _, _ => false
         end
  | None => false
  end.

(** A positive [int] or [float]. *)
Definition positive_number (v : PyVal) : bool :=
  match v with
  | PyInt z => 0 <? z
  | PyFloat f => (0 <? f)%float
  | _ => false
  end.

(** Planets and moons (ids from 100) have a positive [GM] and [r_eq];
    the barycenters and the Sun have neither key. *)
Definition physical_constants_ok (body : PyVal) : bool :=
  match int_field body "id" with
  | Some i =>
      if 100 <=? i then
        match field body "GM", field body "r_eq" with
        | Some gm, Some r => positive_number gm && positive_number r
        | _, _ => false
        end
      else negb (has_key body "GM") && negb (has_key body "r_eq")
  | None => false
  end.

(** A small table with a Sun without parent and two records for the
    Moon, and the dict [PARENT_MAP] is for it. *)
Definition sample_table : list PyVal :=
  [ PyDict ["id" ::= PyInt 0; "parent" ::= PyNone];
    PyDict ["id" ::= PyInt 10; "parent" ::= PyNone];
    PyDict ["id" ::= PyInt 3; "parent" ::= PyInt 0];
    PyDict ["id" ::= PyInt 301; "parent" ::= PyInt 3];
    PyDict ["id" ::= PyInt 301; "parent" ::= PyInt 399] ].

Definition sample_map : list (PyVal * PyVal) :=
  [ (PyInt 3, PyInt 0); (PyInt 301, PyInt 399) ].


(** Three records of the table, for reference. *)
Definition Sun_record : PyVal :=
  PyDict [
    "id" ::= PyInt 10;
    "name" ::= PyStr "Sun";
    "parent" ::= PyInt 0;
    "streamed" ::= PyBool true ].

Definition Mercury_Barycenter_record : PyVal :=
  PyDict [
    "id" ::= PyInt 1;
    "name" ::= PyStr "Mercury Barycenter";
    "parent" ::= PyInt 0;
    "streamed" ::= PyBool true;
    "canonical_orbit" ::= PyDict [
        "a" ::= PyFloat 57909050.0;
        "e" ::= PyFloat 0.2056;
        "i" ::= PyFloat 7.005;
        "Omega" ::= PyFloat 48.331;
        "omega" ::= PyFloat 29.124;
        "M0" ::= PyFloat 174.796 ] ].

Definition Mercury_record : PyVal :=
  PyDict [
    "id" ::= PyInt 199;
    "name" ::= PyStr "Mercury";
    "parent" ::= PyInt 1;
    "j2" ::= PyFloat 6.0e-5;
    "r_eq" ::= PyFloat 2439.7;
    "streamed" ::= PyBool true;
    "GM" ::= PyFloat 22031.86855;
    "canonical_orbit" ::= PyDict [
        "a" ::= PyFloat 57909050.0;
        "e" ::= PyFloat 0.2056;
        "i" ::= PyFloat 7.005;
        "Omega" ::= PyFloat 48.331;
        "omega" ::= PyFloat 29.124;
        "M0" ::= PyFloat 174.796 ] ].

(** * The derivation core described by the specification

    None of the components below is part of [solar_system.py]; each is
    modelled from the specification's contract for it. *)

(** ** BodyCatalog *)

Module BodyCatalog.

(** Modelled from the spec: the six Keplerian elements of a
    [canonical_orbit] bundle (section 3); the module has no such type,
    only dict literals. *)
Record Orbit : Type := mkOrbit {
  orbit_a : float;
  orbit_e : float;
  orbit_i : float;
  orbit_Omega : float;
  orbit_omega : float;
  orbit_M0 : float
}.

(** Modelled from the spec: the Body record of section 3; the optional
    physical and orientation fields are kept verbatim as the remaining
    dict entries. *)
Record Body : Type := mkBody {
  id : Z;
  name : string;
  parent : option Z;
  streamed : bool;
  canonical_orbit : option Orbit;
  opaque : list (PyVal * PyVal)
}.

Definition Catalog : Type := list Body.

(** Modelled from the spec: the structural defects [load] reports
    (sections 4.1 and 7). *)
Inductive CatalogError : Type :=
  | MalformedRecord (index : nat)
  | DuplicateId (i : Z)
  | DanglingParent (i p : Z)
  | ZeroRoots
  | MultipleRoots
  | ElementsOutOfRange (i : Z).

Definition float_field (d : PyVal) (k : string) : option float :=
  match field d k with
  | Some (PyFloat f) => Some f
  | _ => None
  end.

Definition parse_orbit (v : PyVal) : option Orbit :=
  a ← float_field v "a";
  e ← float_field v "e";
  i ← float_field v "i";
  Omega ← float_field v "Omega";
  omega ← float_field v "omega";
  M0 ← float_field v "M0";
  Some (mkOrbit a e i Omega omega M0).

Definition core_key (kv : PyVal * PyVal) : bool :=
  existsb (py_eqb kv.1)
    [PyStr "id"; PyStr "name"; PyStr "parent"; PyStr "streamed";
     PyStr "canonical_orbit"].

Definition parse_body (record : PyVal) : option Body :=
  i ← int_field record "id";
  n ← match field record "name" with Some (PyStr s) => Some s | _ => None end;
  p ← match field record "parent" with
      | Some PyNone => Some None
      | Some (PyInt q) => Some (Some q)
      | _ => None
      end;
  s ← match field record "streamed" with Some (PyBool b) => Some b | _ => None end;
  o ← match field record "canonical_orbit" with
      | None => Some None
      | Some v => Some <$> parse_orbit v
      end;
  rest ← match record with
         | PyDict d => Some (List.filter (fun kv => negb (core_key kv)) d)
         | _ => None
         end;
  Some (mkBody i n p s o rest).

Fixpoint parse_records (index : nat) (records : list PyVal)
  : CatalogError + Catalog :=
  match records with
  | [] => inr []
  | r :: rs =>
      match parse_body r with
      | None => inl (MalformedRecord index)
      | Some b =>
          match parse_records (S index) rs with
          | inl err => inl err
          | inr bs => inr (b :: bs)
          end
      end
  end.

(** First id that occurs twice. *)
Fixpoint duplicate_id (seen : list Z) (bodies : Catalog) : option Z :=
  match bodies with
  | [] => None
  | b :: bs =>
      if bool_decide (id b ∈ seen) then Some (id b)
      else duplicate_id (id b :: seen) bs
  end.

(** First body whose parent is not an id of the catalogue. *)
Definition dangling_parent (bodies : Catalog) : option (Z * Z) :=
  let known := map id bodies in
  snd <$> list_find
    (fun ip : Z * Z => ip.2 ∉ known)
    (omap (fun b => pair (id b) <$> parent b) bodies).

Definition is_root (b : Body) : bool :=
  match parent b with
  | None => true
  | Some _ => false
  end.

(** [a > 0] and [0 <= e < 1] in binary64. *)
Definition elements_in_range (o : Orbit) : bool :=
  ((0 <? orbit_a o) && (0 <=? orbit_e o) && (orbit_e o <? 1))%float.

Definition orbit_in_range (b : Body) : bool :=
  match canonical_orbit b with
  | Some o => elements_in_range o
  | None => true
  end.

(** Modelled from the spec: [load(records)] of section 4.1, which the
    module does not define: it fails with a [CatalogError] on a
    malformed record, a duplicate id, a dangling parent reference,
    zero or several roots, or a [canonical_orbit] with [a] or [e] out of
    range, and otherwise returns the catalogue. *)
Definition load (records : list PyVal) : CatalogError + Catalog :=
  match parse_records 0 records with
  | inl err => inl err
  | inr bodies =>
      match duplicate_id [] bodies with
      | Some i => inl (DuplicateId i)
      | None =>
          match dangling_parent bodies with
          | Some (i, p) => inl (DanglingParent i p)
          | None =>
              match List.filter is_root bodies with
              | [] => inl ZeroRoots
              | _ :: _ :: _ => inl MultipleRoots
              | [_] =>
                  match List.filter (fun b => negb (orbit_in_range b)) bodies with
                  | b :: _ => inl (ElementsOutOfRange (id b))
                  | [] => inr bodies
                  end
              end
          end
      end
  end.

(** Modelled from the spec: [get(id)], [all()] and [root()] of
    section 4.1. *)
Definition get (c : Catalog) (i : Z) : option Body :=
  List.find (fun b => id b =? i) c.

Definition all (c : Catalog) : list Body := c.

Definition root (c : Catalog) : option Body :=
  List.find is_root c.

End BodyCatalog.

(** ** HierarchyIndex *)

Module HierarchyIndex.
Import BodyCatalog.

(** Modelled from the spec: [children_of(id)] and [parent_of(id)] of
    section 4.2, derived from a loaded catalogue; the children are
    listed in catalogue order. *)
Definition children (c : Catalog) (i : Z) : list Body :=
  List.filter (fun b => bool_decide (parent b = Some i)) c.

Definition children_of (c : Catalog) (i : Z) : list Z :=
  map id (children c i).

Definition parent_of (c : Catalog) (i : Z) : option Z :=
  get c i ≫= parent.

End HierarchyIndex.

(** ** Vectors

    Positions are idealised to triples of real numbers. *)

Module Vec.
#[local] Open Scope R_scope.

Record Vector3 : Type := mkVector3 { vx : R; vy : R; vz : R }.

Definition vzero : Vector3 := mkVector3 0 0 0.

Definition vadd (u v : Vector3) : Vector3 :=
  mkVector3 (vx u + vx v) (vy u + vy v) (vz u + vz v).

Definition vneg (u : Vector3) : Vector3 :=
  mkVector3 (- vx u) (- vy u) (- vz u).

Definition vsum (l : list Vector3) : Vector3 := fold_right vadd vzero l.

(** Rotation by [theta] about the third axis, and about the first. *)
Definition rot_z (theta : R) (v : Vector3) : Vector3 :=
  mkVector3 (vx v * cos theta - vy v * sin theta)
            (vx v * sin theta + vy v * cos theta)
            (vz v).

Definition rot_x (theta : R) (v : Vector3) : Vector3 :=
  mkVector3 (vx v)
            (vy v * cos theta - vz v * sin theta)
            (vy v * sin theta + vz v * cos theta).

End Vec.

(** ** FallbackResolver *)

Module FallbackResolver.
Import BodyCatalog Vec.

(** Modelled from the spec: [root_offset()] of section 4.4, the zero
    vector. *)
Definition root_offset : Vector3 := vzero.

(** Modelled from the spec: [derive(designated_body_id,
    sibling_positions)] of section 4.4, the negated sum of the supplied
    sibling positions. *)
Definition derive (designated_body_id : Z) (sibling_positions : list Vector3)
  : Vector3 :=
  vneg (vsum sibling_positions).

(** Modelled from the spec: a body is eligible for fallback derivation
    when it lacks [canonical_orbit] and is not the root (invariant 5). *)
Definition eligible (b : Body) : bool :=
  negb (is_root b) && negb (bool_decide (is_Some (canonical_orbit b))).

(** Modelled from the spec: the parent-relative positions of the direct
    children of [p] at one epoch (sections 4.4 and 4.5): a child with a
    [canonical_orbit] has the position [propagated] gives it, the
    eligible child the one derived from its siblings. *)
Definition child_positions (c : Catalog) (p : Z) (propagated : Body -> Vector3)
  : list Vector3 :=
  let children := HierarchyIndex.children c p in
  let siblings := List.filter (fun b => negb (eligible b)) children in
  map (fun b =>
         if eligible b then derive (id b) (map propagated siblings)
         else propagated b)
      children.

End FallbackResolver.

(** ** KeplerPropagator *)

Module KeplerPropagator.
Import Vec.
#[local] Open Scope R_scope.

(** Modelled from the spec: an element set as [propagate] receives it
    (section 4.3), over the real numbers and with the angles in
    radians. *)
Record Elements : Type := mkElements {
  el_a : R;
  el_e : R;
  el_i : R;
  el_Omega : R;
  el_omega : R;
  el_M0 : R
}.

(** Modelled from the spec: the solver's settings: the fixed iteration
    cap, and the eccentricity above which the seed is [M + e] instead of
    [M] ([None]: the seed is always [M]). *)
Record Config : Type := mkConfig {
  cap : nat;
  high_eccentricity : option R
}.

(** Modelled from the spec: [NumericalError], carrying the last residual
    and the iteration count (section 7). *)
Record NumericalError : Type := mkNumericalError {
  last_residual : R;
  iterations : nat
}.

(** The convergence tolerance, 1e-10 radians. *)
Definition eps : R := 1e-10.

(** Step 1: mean motion from the semi-major axis and the supplied
    gravitational parameter. *)
Definition mean_motion (gm a : R) : R := sqrt (gm / (a * a * a)).

(** Step 2: [M = M0 + n dt], normalised to [[0, 2 pi)]. *)
Definition normalize_angle (x : R) : R :=
  x - 2 * PI * IZR (Int_part (x / (2 * PI))).

Definition mean_anomaly (el : Elements) (gm dt : R) : R :=
  normalize_angle (el_M0 el + mean_motion gm (el_a el) * dt).

(** Step 3: Newton-Raphson on [E - e sin E - M]. *)
Definition kepler_f (e M E : R) : R := E - e * sin E - M.

Definition residual (e M E : R) : R := Rabs (kepler_f e M E).

Definition newton_step (e M E : R) : R :=
  E - kepler_f e M E / (1 - e * cos E).

Definition seed (cfg : Config) (e M : R) : R :=
  match high_eccentricity cfg with
  | Some threshold => if Rlt_dec threshold e then M + e else M
  | None => M
  end.

(** [newton n e M E k]: [E] is the [k]-th iterate and [n] more updates
    are allowed. *)
Fixpoint newton (n : nat) (e M E : R) (k : nat) : NumericalError + (R * nat) :=
  if Rlt_dec (residual e M E) eps then inr (E, k)
  else
    match n with
    | O => inl (mkNumericalError (residual e M E) k)
    | S n' => newton n' e M (newton_step e M E) (S k)
    end.

(** Steps 3 and 6: the eccentric anomaly and the number of updates made;
    [e = 0] gives [E = M] without iterating. *)
Definition solve_kepler (cfg : Config) (e M : R) : NumericalError + (R * nat) :=
  if Req_dec_T e 0 then inr (M, O)
  else newton (cap cfg) e M (seed cfg e M) O.

(** Step 4: radius, and true anomaly in [[0, 2 pi)] from its cosine and
    sine. *)
Definition radius (a e E : R) : R := a * (1 - e * cos E).

Definition cos_nu (e E : R) : R := (cos E - e) / (1 - e * cos E).

Definition sin_nu (e E : R) : R := sqrt (1 - e * e) * sin E / (1 - e * cos E).

Definition true_anomaly (e E : R) : R :=
  if Rle_dec 0 (sin_nu e E) then acos (cos_nu e E)
  else 2 * PI - acos (cos_nu e E).

(** Step 5: the point of the orbital plane at distance [r] and angle
    [nu] from periapsis, and its rotation by [omega], [i], [Omega] in
    that order; [i = 0] skips the inclination rotation (step 6). *)
Definition perifocal (r nu : R) : Vector3 :=
  mkVector3 (r * cos nu) (r * sin nu) 0.

Definition incline (i : R) (v : Vector3) : Vector3 :=
  if Req_dec_T i 0 then v else rot_x i v.

Definition to_parent_frame (el : Elements) (v : Vector3) : Vector3 :=
  rot_z (el_Omega el) (incline (el_i el) (rot_z (el_omega el) v)).

(** The position built from an eccentric anomaly (steps 4 and 5). *)
Definition position_at (el : Elements) (E : R) : Vector3 :=
  to_parent_frame el
    (perifocal (radius (el_a el) (el_e el) E) (true_anomaly (el_e el) E)).

(** Modelled from the spec: [propagate(elements,
    parent_gm_or_convention, dt_seconds)] of section 4.3, which the
    module does not define; a solve that does not converge within the
    cap is a [NumericalError]. *)
Definition propagate (cfg : Config) (el : Elements) (gm dt : R)
  : NumericalError + Vector3 :=
  let M := mean_anomaly el gm dt in
  match solve_kepler cfg (el_e el) M with
  | inl err => inl err
  | inr (E, _) => inr (position_at el E)
  end.

(** The [k]-th Newton iterate from the seed. *)
Definition iterate (cfg : Config) (e M : R) (k : nat) : R :=
  Nat.iter k (newton_step e M) (seed cfg e M).

(** Sample inputs: a circular orbit, and orbits of eccentricity
    0.999999 with mean anomaly 0, [pi/2 - e] and [pi/2] at the epoch. *)
Definition circular_orbit : Elements := mkElements 1 0 0 0 0 0.

Definition near_parabolic (M0 : R) : Elements :=
  mkElements 1 0.999999 0 0 0 M0.

Definition cap_50 (high_eccentricity : option R) : Config :=
  mkConfig 50 high_eccentricity.

End KeplerPropagator.

(** * Properties of the table *)

(** ** Evaluation of the two comprehensions *)

Lemma PARENT_MAP_eval : PARENT_MAP = ok (map int_entry parent_pairs).
Proof. vm_compute. reflexivity. Qed.

Lemma ids_of_eval :
  ids_of SOLAR_SYSTEM_BODIES = 0 :: map fst parent_pairs.
Proof. vm_compute. reflexivity. Qed.

Lemma dict_lookup_int_entries (l : list (Z * Z)) (i : Z) (v : PyVal) :
  dict_lookup (map int_entry l) (PyInt i) = Some v ->
  exists p, v = PyInt p /\ (i, p) ∈ l.
Proof.
  induction l as [|[k q] l IH]; simpl; [discriminate|].
  destruct (Z.eqb_spec k i) as [->|Hne].
  - intros [= <-]. exists q. split; [reflexivity|]. left.
  - intros H. destruct (IH H) as (p & -> & Hin).
    exists p. split; [reflexivity|]. right. exact Hin.
Qed.

Lemma PARENT_MAP_get_pairs (i p : Z) :
  PARENT_MAP_get i = Some p -> (i, p) ∈ parent_pairs.
Proof.
  unfold PARENT_MAP_get. rewrite PARENT_MAP_eval. unfold ok.
  destruct (dict_lookup _ _) as [v|] eqn:E; [|discriminate].
  apply dict_lookup_int_entries in E as (q & -> & Hin).
  simpl. intros [= <-]. exact Hin.
Qed.

(** Every parent link goes to a body of smaller depth. *)
Lemma parent_link_depth (i p : Z) :
  parent_link i p -> (depth p < depth i)%nat.
Proof.
  intros H%PARENT_MAP_get_pairs.
  assert (Hall : Forall (fun kv => (depth kv.2 < depth kv.1)%nat) parent_pairs).
  { apply Forall_fold_right. vm_compute. repeat split; lia. }
  rewrite Forall_forall in Hall. exact (Hall _ H).
Qed.

Lemma tc_parent_link_depth (i j : Z) :
  tc parent_link i j -> (depth j < depth i)%nat.
Proof.
  induction 1 as [i j H|i p j H _ IH].
  - exact (parent_link_depth _ _ H).
  - apply parent_link_depth in H. lia.
Qed.

Lemma chain_up_chain (fuel : nat) (i : Z) (l : list Z) :
  chain_up fuel i = Some l ->
  exists j, chain i j l /\ PARENT_MAP_get j = None /\ last l = Some j.
Proof.
  revert i l. induction fuel as [|fuel IH]; intros i l; simpl;
    destruct (PARENT_MAP_get i) as [p|] eqn:Hp; try discriminate.
  - intros [= <-]. exists i. repeat split; [constructor|assumption].
  - destruct (chain_up fuel p) as [l'|] eqn:E; [|discriminate].
    intros [= <-]. destruct (IH _ _ E) as (j & Hc & Hj & Hl).
    exists j. repeat split; [econstructor; eassumption|assumption|].
    destruct l'; [inversion Hc|exact Hl].
  - intros [= <-]. exists i. repeat split; [constructor|assumption].
Qed.

Lemma int_field_Some (body : PyVal) (k : string) (i : Z) :
  int_field body k = Some i <-> field body k = Some (PyInt i).
Proof.
  unfold int_field. destruct (field body k) as [[]|]; simpl; split;
    intros H; inversion H; reflexivity.
Qed.

Lemma forallb_elem_of {A} (f : A -> bool) (l : list A) :
  forallb f l = true -> forall x, x ∈ l -> f x = true.
Proof.
  intros H x Hx. rewrite forallb_forall in H.
  apply H, list_elem_of_In, Hx.
Qed.

Lemma ids_of_elem (bodies : list PyVal) (i : Z) :
  i ∈ ids_of bodies <->
  exists body, body ∈ bodies /\ field body "id" = Some (PyInt i).
Proof.
  unfold ids_of. rewrite list_elem_of_omap.
  split; intros (body & Hin & H); exists body; split; try assumption;
    apply int_field_Some; assumption.
Qed.

(** ** The parent graph *)

Lemma parent_known_sound (bodies : list PyVal) (body : PyVal) :
  parent_known bodies body = true ->
  field body "parent" = Some PyNone \/
  exists p body',
    field body "parent" = Some (PyInt p) /\
    body' ∈ bodies /\ field body' "id" = Some (PyInt p).
Proof.
  unfold parent_known.
  destruct (field body "parent") as [[| |p| | | |]|]; try discriminate.
  - left. reflexivity.
  - intros H%bool_decide_eq_true. right.
    apply ids_of_elem in H as (body' & Hin & Hid).
    exists p, body'. auto.
Qed.

Lemma reaches_root_sound (body : PyVal) :
  reaches_root body = true ->
  exists i l,
    field body "id" = Some (PyInt i) /\ chain i 0 l /\ NoDup l /\
    (length l <= length SOLAR_SYSTEM_BODIES)%nat.
Proof.
  unfold reaches_root.
  destruct (int_field body "id") as [i|] eqn:Hid; [|discriminate].
  destruct (chain_up _ i) as [l|] eqn:Hl; [|discriminate].
  rewrite !andb_true_iff, !bool_decide_eq_true.
  intros [[Hlast Hnd] Hlen].
  apply chain_up_chain in Hl as (j & Hc & _ & Hj).
  assert (j = 0) as -> by congruence.
  exists i, l. split; [apply int_field_Some, Hid|]. auto.
Qed.

Lemma linked_in_table_sound (body : PyVal) :
  linked_in_table body = true ->
  forall i p,
    field body "id" = Some (PyInt i) ->
    field body "parent" = Some (PyInt p) ->
    parent_link i p.
Proof.
  unfold linked_in_table, parent_link. intros H i p Hi Hp.
  rewrite Hi, Hp in H. apply bool_decide_eq_true in H. exact H.
Qed.

(** C1. Every parent named in [SOLAR_SYSTEM_BODIES] is the id of a
    record of the table, the links of [PARENT_MAP] are those of the
    table, following them from any body reaches the root (id 0) through
    pairwise distinct bodies, and no body is its own ancestor: the
    parent graph is a tree rooted at body 0. *)
Theorem parent_graph_is_tree_rooted_at_0 :
  (forall body, body ∈ SOLAR_SYSTEM_BODIES ->
     field body "parent" = Some PyNone \/
     exists p body',
       field body "parent" = Some (PyInt p) /\
       body' ∈ SOLAR_SYSTEM_BODIES /\ field body' "id" = Some (PyInt p)) /\
  (forall i p,
     parent_link i p <->
     exists body, body ∈ SOLAR_SYSTEM_BODIES /\
       field body "id" = Some (PyInt i) /\
       field body "parent" = Some (PyInt p)) /\
  (forall body, body ∈ SOLAR_SYSTEM_BODIES ->
     exists i l,
       field body "id" = Some (PyInt i) /\ chain i 0 l /\ NoDup l /\
       (length l <= length SOLAR_SYSTEM_BODIES)%nat) /\
  (forall i, ~ tc parent_link i i) /\
  NoDup (ids_of SOLAR_SYSTEM_BODIES) /\
  PARENT_MAP_get 0 = None.
Proof.
  split; [|split; [|split; [|split; [|split]]]].
  - intros body Hin. apply parent_known_sound.
    revert body Hin. apply forallb_elem_of. vm_compute. reflexivity.
  - intros i p. split.
    + intros H%PARENT_MAP_get_pairs.
      assert (Hall : Forall (fun kv => exists body,
                body ∈ SOLAR_SYSTEM_BODIES /\
                field body "id" = Some (PyInt kv.1) /\
                field body "parent" = Some (PyInt kv.2)) parent_pairs).
      { apply Forall_forall. intros [k q] Hkq. simpl.
        assert (Hf : forallb (fun kv => has_record kv.1 kv.2) parent_pairs = true)
          by (vm_compute; reflexivity).
        pose proof (forallb_elem_of _ _ Hf _ Hkq) as Hb. simpl in Hb.
        unfold has_record in Hb. apply existsb_exists in Hb as (body & Hin & Hb).
        exists body. split; [apply list_elem_of_In, Hin|].
        rewrite andb_true_iff, !bool_decide_eq_true in Hb.
        destruct Hb as [H1 H2]. split; apply int_field_Some; assumption. }
      rewrite Forall_forall in Hall. exact (Hall _ H).
    + intros (body & Hin & Hi & Hp).
      apply (linked_in_table_sound body); [|assumption..].
      clear Hi Hp. revert body Hin. apply forallb_elem_of. vm_compute. reflexivity.
  - intros body Hin. apply reaches_root_sound.
    revert body Hin. apply forallb_elem_of. vm_compute. reflexivity.
  - intros i H%tc_parent_link_depth. lia.
  - rewrite ids_of_eval. apply (bool_decide_unpack _). vm_compute. exact I.
  - vm_compute. reflexivity.
Qed.

(** ** The root *)

(** C2. Exactly one record of [SOLAR_SYSTEM_BODIES] has [parent = None]:
    the Solar System Barycenter, id 0.  It is what [root()] returns on
    the loaded catalogue, it has no entry in [PARENT_MAP] (its parent
    is absent), and every other body of the table has one. *)
Theorem exactly_one_root :
  (exists r,
     List.filter parent_is_None SOLAR_SYSTEM_BODIES = [r] /\
     field r "id" = Some (PyInt 0) /\
     field r "name" = Some (PyStr "Solar System Barycenter")) /\
  (exists c r,
     BodyCatalog.load SOLAR_SYSTEM_BODIES = inr c /\
     List.filter BodyCatalog.is_root c = [r] /\
     BodyCatalog.root c = Some r /\
     BodyCatalog.id r = 0 /\
     HierarchyIndex.parent_of c 0 = None) /\
  (exists d,
     PARENT_MAP = ok d /\
     dict_lookup d (PyInt 0) = None /\
     forall body, body ∈ SOLAR_SYSTEM_BODIES ->
       exists i, field body "id" = Some (PyInt i) /\
         (i <> 0 -> is_Some (dict_lookup d (PyInt i)))).
Proof.
  split; [|split].
  - eexists. split; [vm_compute; reflexivity|]. split; reflexivity.
  - do 2 eexists. split; [vm_compute; reflexivity|].
    repeat split; vm_compute; reflexivity.
  - eexists. split; [apply PARENT_MAP_eval|]. split; [vm_compute; reflexivity|].
    intros body Hin.
    assert (Hall : forallb (fun body =>
              match int_field body "id" with
              | Some i =>
                  (i =? 0) || bool_decide
                    (is_Some (dict_lookup (map int_entry parent_pairs) (PyInt i)))
              | None => false
              end) SOLAR_SYSTEM_BODIES = true) by (vm_compute; reflexivity).
    pose proof (forallb_elem_of _ _ Hall _ Hin) as Hb. simpl in Hb.
    destruct (int_field body "id") as [i|] eqn:Hi; [|discriminate].
    exists i. split; [apply int_field_Some, Hi|].
    intros Hne. apply orb_true_iff in Hb as [Hb|Hb].
    + apply Z.eqb_eq in Hb. contradiction.
    + apply bool_decide_eq_true in Hb. exact Hb.
Qed.

(** ** Canonical orbits *)

(** C3. The direct children of the root are the Sun (id 10) and the nine
    barycenters (ids 1 to 9); among them only the Sun lacks a
    [canonical_orbit] and is eligible for fallback derivation, the nine
    barycenters carry one, and in the whole table only the root and the
    Sun lack it. *)
Theorem sun_is_the_only_child_without_orbit :
  id_fields (List.filter (parent_is 0) SOLAR_SYSTEM_BODIES)
    = Some <$> [10; 1; 2; 3; 4; 5; 6; 7; 8; 9] /\
  id_fields (List.filter (fun b => parent_is 0 b && lacks_orbit b)
               SOLAR_SYSTEM_BODIES) = [Some 10] /\
  id_fields (List.filter (fun b => parent_is 0 b && fallback_eligible b)
               SOLAR_SYSTEM_BODIES) = [Some 10] /\
  id_fields (List.filter (fun b => parent_is 0 b && has_key b "canonical_orbit")
               SOLAR_SYSTEM_BODIES) = Some <$> [1; 2; 3; 4; 5; 6; 7; 8; 9] /\
  map (fun b => field b "name")
    (List.filter (fun b => parent_is 0 b && has_key b "canonical_orbit")
       SOLAR_SYSTEM_BODIES)
    = map (fun n => Some (PyStr n))
        [ "Mercury Barycenter"; "Venus Barycenter"; "Earth Barycenter";
          "Mars Barycenter"; "Jupiter Barycenter"; "Saturn Barycenter";
          "Uranus Barycenter"; "Neptune Barycenter";
          "Pluto System Barycenter" ] /\
  id_fields (List.filter lacks_orbit SOLAR_SYSTEM_BODIES) = [Some 0; Some 10] /\
  (exists sun,
     sun ∈ SOLAR_SYSTEM_BODIES /\ field sun "id" = Some (PyInt 10) /\
     field sun "name" = Some (PyStr "Sun")).
Proof.
  repeat split; try (vm_compute; reflexivity).
  eexists. split; [right; left|split; reflexivity].
Qed.

Lemma orbit_ok_sound (body orbit : PyVal) :
  orbit_ok body = true ->
  field body "canonical_orbit" = Some orbit ->
  exists a e,
    field orbit "a" = Some (PyFloat a) /\ field orbit "e" = Some (PyFloat e) /\
    (0 <? a)%float = true /\ (0 <=? e)%float = true /\ (e <? 1)%float = true.
Proof.
  unfold orbit_ok. intros H Hf. rewrite Hf in H.
  destruct (field orbit "a") as [[| | |a| | |]|]; try discriminate.
  destruct (field orbit "e") as [[| | |e| | |]|]; try discriminate.
  rewrite !andb_true_iff in H. destruct H as [[Ha He0] He1].
  exists a, e. auto.
Qed.

(** C4. Every [canonical_orbit] of [SOLAR_SYSTEM_BODIES] has [a > 0] and
    [0 <= e < 1]; the largest eccentricity of the table is Nereid's,
    0.751; so [BodyCatalog.load] accepts the table: it raises no
    [CatalogError], for out-of-range elements or otherwise. *)
Theorem canonical_orbits_in_range :
  (forall body orbit,
     body ∈ SOLAR_SYSTEM_BODIES ->
     field body "canonical_orbit" = Some orbit ->
     exists a e,
       field orbit "a" = Some (PyFloat a) /\
       field orbit "e" = Some (PyFloat e) /\
       (0 <? a)%float = true /\ (0 <=? e)%float = true /\
       (e <? 1)%float = true) /\
  (exists nereid orbit,
     nereid ∈ SOLAR_SYSTEM_BODIES /\
     field nereid "id" = Some (PyInt 803) /\
     field nereid "name" = Some (PyStr "Nereid") /\
     field nereid "canonical_orbit" = Some orbit /\
     field orbit "e" = Some (PyFloat 0.751) /\
     forallb (eccentricity_le 0.751) SOLAR_SYSTEM_BODIES = true) /\
  (exists c,
     BodyCatalog.load SOLAR_SYSTEM_BODIES = inr c /\
     forallb BodyCatalog.orbit_in_range c = true /\
     map BodyCatalog.id c = ids_of SOLAR_SYSTEM_BODIES).
Proof.
  split; [|split].
  - intros body orbit Hin. apply orbit_ok_sound.
    revert body Hin. apply forallb_elem_of. vm_compute. reflexivity.
  - assert (Hn : exists nereid,
        List.find (fun b => bool_decide (int_field b "id" = Some 803))
          SOLAR_SYSTEM_BODIES = Some nereid)
      by (eexists; vm_compute; reflexivity).
    destruct Hn as [nereid Hn]. pose proof Hn as Hf.
    apply find_some in Hn as [Hin _].
    vm_compute in Hf. injection Hf as <-.
    do 2 eexists. split; [apply list_elem_of_In, Hin|].
    repeat split; vm_compute; reflexivity.
  - eexists. split; [vm_compute; reflexivity|].
    split; vm_compute; reflexivity.
Qed.

(** ** The [streamed] flag *)

(** C10. Every record of [SOLAR_SYSTEM_BODIES] has a boolean [streamed]
    entry; it is [False] for the root (id 0) only, and [True] for every
    other body, the Sun included. *)
Theorem streamed_false_only_for_root :
  (forall body, body ∈ SOLAR_SYSTEM_BODIES ->
     exists b, field body "streamed" = Some (PyBool b)) /\
  id_fields (List.filter (streamed_is false) SOLAR_SYSTEM_BODIES) = [Some 0] /\
  id_fields (List.filter (streamed_is true) SOLAR_SYSTEM_BODIES)
    = Some <$> map fst parent_pairs /\
  (exists sun,
     sun ∈ SOLAR_SYSTEM_BODIES /\ field sun "id" = Some (PyInt 10) /\
     field sun "name" = Some (PyStr "Sun") /\
     field sun "streamed" = Some (PyBool true)).
Proof.
  split; [|split; [|split]]; try (vm_compute; reflexivity).
  - intros body Hin.
    assert (Hall : forallb (fun body => streamed_is true body || streamed_is false body)
              SOLAR_SYSTEM_BODIES = true) by (vm_compute; reflexivity).
    pose proof (forallb_elem_of _ _ Hall _ Hin) as Hb. simpl in Hb.
    unfold streamed_is in Hb.
    destruct (field body "streamed") as [[|b| | | | |]|]; try discriminate.
    exists b. reflexivity.
  - eexists. split; [right; left|]. repeat split; reflexivity.
Qed.

(** ** Named constants *)

(** C8. The four named constants are the literals 86400.0,
    "2025-05-11T00:00:00" (of ISO-8601 shape), "ECLIPJ2000" and
    500000.0 (written [500e3]); the two floats are exactly the integers
    86400 and 500000. *)
Theorem named_constants :
  SECONDS_PER_DAY = PyFloat 86400.0 /\
  DEFAULT_EPOCH = PyStr "2025-05-11T00:00:00" /\
  iso8601_shape "2025-05-11T00:00:00" = true /\
  DEFAULT_FRAME = PyStr "ECLIPJ2000" /\
  DEFAULT_DRAG_CUTOFF = PyFloat 500000.0 /\
  py_eqb SECONDS_PER_DAY (PyInt 86400) = true /\
  py_eqb DEFAULT_DRAG_CUTOFF (PyInt 500000) = true.
Proof. repeat split; vm_compute; reflexivity. Qed.

(** ** [DEFAULT_BODIES] *)

(** When every record with id 10 has a parent, the second disjunct of
    the filter of [DEFAULT_BODIES] selects nothing more. *)
Lemma id_10_disjunct_redundant (bodies : list PyVal) :
  (forall body, body ∈ bodies ->
     field body "id" ≫= (fun i => Some (py_eqb i (PyInt 10))) = Some true ->
     parent_is_None body = false /\ is_Some (field body "parent")) ->
  DEFAULT_BODIES_comp bodies = with_parent_comp bodies.
Proof.
  induction bodies as [|body rest IH]; intros H; [reflexivity|].
  assert (IH' : DEFAULT_BODIES_comp rest = with_parent_comp rest).
  { apply IH. intros b Hb. apply H. right. exact Hb. }
  specialize (H body (list_elem_of_here _ _)). clear IH.
  simpl. destruct body as [| | | | | |d]; try reflexivity.
  unfold py_get, parent_is_None, field in *.
  destruct (dict_lookup d (PyStr "parent")) as [v|] eqn:Hp; simpl.
  - destruct (is_None v) eqn:Hv; simpl; [|rewrite IH'; reflexivity].
    destruct (dict_lookup d (PyStr "id")) as [i|] eqn:Hi; simpl; [|exact IH'].
    destruct (py_eqb i (PyInt 10)) eqn:E; [|exact IH'].
    simpl in H. rewrite E in H. destruct (H eq_refl) as [Hn _].
    destruct v; discriminate.
  - destruct (dict_lookup d (PyStr "id")) as [i|] eqn:Hi; simpl; [|exact IH'].
    destruct (py_eqb i (PyInt 10)) eqn:E; [|exact IH'].
    simpl in H. rewrite E in H. destruct (H eq_refl) as [_ [? ?]]. discriminate.
Qed.

(** C9. [DEFAULT_BODIES] lists the ids of all records of the table but
    the root, in table order; dropping the disjunct that admits id 10
    changes nothing, since the Sun's parent is 0; and the list is the
    key list of [PARENT_MAP], hence the same set. *)
Theorem DEFAULT_BODIES_is_all_but_root :
  map (fun body => field body "id") SOLAR_SYSTEM_BODIES
    = map (fun i => Some (PyInt i)) (ids_of SOLAR_SYSTEM_BODIES) /\
  DEFAULT_BODIES
    = ok (map PyInt (List.filter (fun i => negb (i =? 0))
                       (ids_of SOLAR_SYSTEM_BODIES))) /\
  with_parent_comp SOLAR_SYSTEM_BODIES = DEFAULT_BODIES /\
  (exists sun,
     List.filter (fun b => bool_decide (int_field b "id" = Some 10))
       SOLAR_SYSTEM_BODIES = [sun] /\
     field sun "name" = Some (PyStr "Sun") /\
     field sun "parent" = Some (PyInt 0)) /\
  (exists d l,
     PARENT_MAP = ok d /\ DEFAULT_BODIES = ok l /\ dict_keys d = l /\
     forall v, v ∈ l <-> v ∈ dict_keys d).
Proof.
  split; [|split; [|split; [|split]]].
  - vm_compute. reflexivity.
  - vm_compute. reflexivity.
  - symmetry. apply id_10_disjunct_redundant. intros body Hin Hid.
    assert (Hall : forallb (fun body =>
              match field body "id" with
              | Some i => negb (py_eqb i (PyInt 10)) ||
                  (negb (parent_is_None body)
                   && bool_decide (is_Some (int_field body "parent")))
              | None => true
              end) SOLAR_SYSTEM_BODIES = true) by (vm_compute; reflexivity).
    pose proof (forallb_elem_of _ _ Hall _ Hin) as Hb. simpl in Hb.
    destruct (field body "id") as [i|]; [|discriminate]. simpl in Hid.
    injection Hid as Hid. rewrite Hid in Hb. simpl in Hb.
    apply andb_true_iff in Hb as [Hb1 Hb2].
    apply negb_true_iff in Hb1. apply bool_decide_eq_true in Hb2.
    split; [exact Hb1|]. unfold int_field in Hb2.
    destruct (field body "parent"); [eauto|]. destruct Hb2 as [? ?]. discriminate.
  - eexists. split; [vm_compute; reflexivity|]. split; reflexivity.
  - do 2 eexists. split; [apply PARENT_MAP_eval|].
    split; [vm_compute; reflexivity|]. split; [vm_compute; reflexivity|].
    intros v. reflexivity.
Qed.

(** * Properties of the derivation core *)

(** ** Fallback resolution *)

Section Balance.
Import BodyCatalog Vec FallbackResolver.
#[local] Open Scope R_scope.

Lemma vadd_comm (u v : Vector3) : vadd u v = vadd v u.
Proof. unfold vadd. f_equal; ring. Qed.

Lemma vadd_assoc (u v w : Vector3) : vadd u (vadd v w) = vadd (vadd u v) w.
Proof. unfold vadd. simpl. f_equal; ring. Qed.

Lemma vadd_vneg (u : Vector3) : vadd (vneg u) u = vzero.
Proof. unfold vadd, vneg, vzero. simpl. f_equal; ring. Qed.

Variable elig : Body -> bool.
Variable pos : Body -> Vector3.
Variable derived : Vector3.

Lemma resolve_no_eligible (cs : list Body) :
  List.filter elig cs = [] ->
  map (fun b => if elig b then derived else pos b) cs = map pos cs /\
  List.filter (fun b => negb (elig b)) cs = cs.
Proof.
  induction cs as [|b cs IH]; simpl; [auto|].
  destruct (elig b); simpl; [discriminate|].
  intros H. destruct (IH H) as [-> ->]. auto.
Qed.

Lemma vsum_resolve_one_eligible (cs : list Body) :
  length (List.filter elig cs) = 1%nat ->
  vsum (map (fun b => if elig b then derived else pos b) cs)
  = vadd derived (vsum (map pos (List.filter (fun b => negb (elig b)) cs))).
Proof.
  induction cs as [|b cs IH]; simpl; [discriminate|].
  destruct (elig b); simpl.
  - intros H. destruct (resolve_no_eligible cs) as [-> ->]; [|reflexivity].
    destruct (List.filter elig cs); [reflexivity|discriminate].
  - intros H. rewrite (IH H), !vadd_assoc.
    f_equal. apply vadd_comm.
Qed.

End Balance.

(** With exactly one eligible child, the resolved positions of the
    children of a body sum to zero. *)
Lemma child_positions_balance
    (c : BodyCatalog.Catalog) (p : Z)
    (propagated : BodyCatalog.Body -> Vec.Vector3) :
  length (List.filter FallbackResolver.eligible (HierarchyIndex.children c p))
    = 1%nat ->
  Vec.vsum (FallbackResolver.child_positions c p propagated) = Vec.vzero.
Proof.
  intros H. unfold FallbackResolver.child_positions, FallbackResolver.derive.
  rewrite (vsum_resolve_one_eligible FallbackResolver.eligible propagated
             (Vec.vneg (Vec.vsum (map propagated
                (List.filter (fun b => negb (FallbackResolver.eligible b))
                   (HierarchyIndex.children c p))))) _ H).
  apply vadd_vneg.
Qed.

Section Components.
Import BodyCatalog Vec FallbackResolver.
#[local] Open Scope R_scope.

(** The components of a sum of vectors are the sums of the components. *)
Lemma vsum_components (l : list Vector3) :
  vx (vsum l) = fold_right Rplus 0 (map vx l) /\
  vy (vsum l) = fold_right Rplus 0 (map vy l) /\
  vz (vsum l) = fold_right Rplus 0 (map vz l).
Proof.
  induction l as [|v l (Hx & Hy & Hz)]; simpl; [auto|].
  rewrite Hx, Hy, Hz. auto.
Qed.

Lemma derive_components (i : Z) (sibling_positions : list Vector3) :
  derive i sibling_positions
  = mkVector3 (- fold_right Rplus 0 (map vx sibling_positions))
              (- fold_right Rplus 0 (map vy sibling_positions))
              (- fold_right Rplus 0 (map vz sibling_positions)).
Proof.
  unfold derive, vneg.
  destruct (vsum_components sibling_positions) as (-> & -> & ->).
  reflexivity.
Qed.

Lemma filter_none_eligible (bs : list Body) :
  forallb (fun b => negb (eligible b)) bs = true ->
  List.filter (fun b => negb (eligible b)) bs = bs.
Proof.
  induction bs as [|b bs IH]; simpl; [reflexivity|].
  intros [Hb Hbs]%andb_true_iff. rewrite Hb, (IH Hbs). reflexivity.
Qed.

(** When the first child is the eligible one, its position is derived
    from all the others, which keep their propagated positions. *)
Lemma child_positions_first_eligible
    (c : Catalog) (p : Z) (propagated : Body -> Vector3)
    (first : Body) (others : list Body) :
  HierarchyIndex.children c p = first :: others ->
  eligible first = true ->
  forallb (fun b => negb (eligible b)) others = true ->
  child_positions c p propagated
  = derive (id first) (map propagated others) :: map propagated others.
Proof.
  intros Hc Hf Ho. unfold child_positions. rewrite Hc. simpl.
  rewrite Hf. simpl. rewrite (filter_none_eligible _ Ho). f_equal.
  apply map_ext_in. intros b Hb. rewrite forallb_forall in Ho.
  specialize (Ho b Hb). apply negb_true_iff in Ho. rewrite Ho. reflexivity.
Qed.

Lemma total_with_negation (f : Vector3 -> R) (l : list Vector3) (d : R) :
  d = - fold_right Rplus 0 (map f l) ->
  d + fold_right Rplus 0 (map f l) = 0.
Proof. intros ->. ring. Qed.

End Components.

(** C5. [derive] returns the vector whose components are the negated
    sums of the components of the sibling positions.  The children of
    the root are the Sun, the one eligible body, and the nine
    barycenters; whatever positions the barycenters are given at an
    epoch, the positions of the children are the Sun's derived one,
    the negated componentwise sum of the barycenters' positions,
    followed by those of the barycenters, and each component summed
    over all ten positions is zero: they sum to the zero vector. *)
Theorem derived_sun_balances_barycenters :
  (forall (i : Z) (sibling_positions : list Vec.Vector3),
     FallbackResolver.derive i sibling_positions
     = Vec.mkVector3
         (- fold_right Rplus 0%R (map Vec.vx sibling_positions))
         (- fold_right Rplus 0%R (map Vec.vy sibling_positions))
         (- fold_right Rplus 0%R (map Vec.vz sibling_positions))) /\
  exists c sun barycenters,
    BodyCatalog.load SOLAR_SYSTEM_BODIES = inr c /\
    HierarchyIndex.children c 0 = sun :: barycenters /\
    BodyCatalog.id sun = 10 /\
    BodyCatalog.name sun = "Sun" /\
    BodyCatalog.canonical_orbit sun = None /\
    map BodyCatalog.id barycenters = [1; 2; 3; 4; 5; 6; 7; 8; 9] /\
    forall (propagated : R -> BodyCatalog.Body -> Vec.Vector3) (epoch : R),
      FallbackResolver.child_positions c 0 (propagated epoch)
      = (Vec.mkVector3
           (- fold_right Rplus 0%R
                (map (fun b => Vec.vx (propagated epoch b)) barycenters))
           (- fold_right Rplus 0%R
                (map (fun b => Vec.vy (propagated epoch b)) barycenters))
           (- fold_right Rplus 0%R
                (map (fun b => Vec.vz (propagated epoch b)) barycenters))
         :: map (propagated epoch) barycenters) /\
      fold_right Rplus 0%R
        (map Vec.vx (FallbackResolver.child_positions c 0 (propagated epoch)))
        = 0%R /\
      fold_right Rplus 0%R
        (map Vec.vy (FallbackResolver.child_positions c 0 (propagated epoch)))
        = 0%R /\
      fold_right Rplus 0%R
        (map Vec.vz (FallbackResolver.child_positions c 0 (propagated epoch)))
        = 0%R /\
      Vec.vsum (FallbackResolver.child_positions c 0 (propagated epoch))
      = Vec.vzero.
Proof.
  split; [exact derive_components|].
  destruct (BodyCatalog.load SOLAR_SYSTEM_BODIES) as [err|c] eqn:Hload;
    [vm_compute in Hload; discriminate|].
  destruct (HierarchyIndex.children c 0) as [|sun barycenters] eqn:Hc.
  { vm_compute in Hload. injection Hload as <-. vm_compute in Hc. discriminate. }
  exists c, sun, barycenters. split; [reflexivity|]. split; [exact Hc|].
  assert (Hf : FallbackResolver.eligible sun = true /\
               forallb (fun b => negb (FallbackResolver.eligible b))
                 barycenters = true /\
               BodyCatalog.id sun = 10 /\ BodyCatalog.name sun = "Sun" /\
               BodyCatalog.canonical_orbit sun = None /\
               map BodyCatalog.id barycenters = [1; 2; 3; 4; 5; 6; 7; 8; 9]).
  { vm_compute in Hload. injection Hload as <-.
    vm_compute in Hc. injection Hc as <- <-.
    repeat split; vm_compute; reflexivity. }
  destruct Hf as (Hs & Hb & Hid & Hname & Horb & Hids).
  repeat (split; [assumption|]).
  intros propagated epoch.
  assert (Hsum : Vec.vsum (FallbackResolver.child_positions c 0
                             (propagated epoch)) = Vec.vzero).
  { apply child_positions_balance. rewrite Hc. simpl. rewrite Hs. simpl.
    clear - Hb. induction barycenters as [|b bs IH]; [reflexivity|].
    simpl in *. apply andb_true_iff in Hb as [Hb1 Hb2].
    apply negb_true_iff in Hb1. rewrite Hb1. exact (IH Hb2). }
  pose proof (child_positions_first_eligible c 0 (propagated epoch) sun
                barycenters Hc Hs Hb) as Hcp.
  rewrite derive_components, !map_map in Hcp.
  split; [exact Hcp|].
  repeat (split; [rewrite Hcp; simpl; rewrite !map_map; simpl; ring|]).
  exact Hsum.
Qed.

(** ** Kepler propagation *)

Section Kepler.
Import Vec KeplerPropagator.
#[local] Open Scope R_scope.

Lemma eps_pos : 0 < eps.
Proof. unfold eps. lra. Qed.

Lemma normalize_angle_range (x : R) :
  0 <= normalize_angle x < 2 * PI.
Proof.
  unfold normalize_angle. pose proof PI_RGT_0 as Hpi.
  set (q := x / (2 * PI)).
  destruct (base_Int_part q) as [Hlo Hhi].
  assert (Hx : x = 2 * PI * q) by (unfold q; field; lra).
  set (k := IZR (Int_part q)) in *.
  assert (H0 : 0 <= PI * (q - k)) by (apply Rmult_le_pos; lra).
  assert (H1 : 0 < PI * (1 - (q - k))) by (apply Rmult_lt_0_compat; lra).
  split; lra.
Qed.

Lemma normalize_angle_fixed (x : R) :
  0 <= x < 2 * PI -> normalize_angle x = x.
Proof.
  intros [H0 H1]. unfold normalize_angle. pose proof PI_RGT_0 as Hpi.
  assert (Hq : 0 <= x / (2 * PI) < 1).
  { split.
    - apply Rmult_le_pos; [lra|]. left. apply Rinv_0_lt_compat. lra.
    - apply (Rmult_lt_reg_r (2 * PI)); [lra|]. field_simplify; lra. }
  rewrite <- (Int_part_spec (x / (2 * PI)) 0); simpl; lra.
Qed.

(** On a circular orbit the true anomaly is the eccentric anomaly. *)
Lemma true_anomaly_circular (E : R) :
  0 <= E < 2 * PI -> true_anomaly 0 E = E.
Proof.
  intros [H0 H1]. unfold true_anomaly, sin_nu, cos_nu.
  replace (1 - 0 * 0) with 1 by ring. rewrite sqrt_1.
  replace (1 * sin E / (1 - 0 * cos E)) with (sin E) by (field; lra).
  replace ((cos E - 0) / (1 - 0 * cos E)) with (cos E) by (field; lra).
  destruct (Rle_dec 0 (sin E)) as [Hs|Hs].
  - apply acos_cos. split; [exact H0|].
    destruct (Rle_lt_dec E PI) as [Hle|Hgt]; [exact Hle|].
    pose proof (sin_lt_0 E Hgt H1). lra.
  - assert (Hgt : PI < E).
    { destruct (Rle_lt_dec E PI) as [Hle|Hgt]; [|exact Hgt].
      pose proof (sin_ge_0 E H0 Hle). lra. }
    replace (cos E) with (cos (2 * PI - E)).
    + rewrite acos_cos; lra.
    + rewrite cos_minus, cos_2PI, sin_2PI. ring.
Qed.

Lemma solve_kepler_circular (cfg : Config) (M : R) :
  solve_kepler cfg 0 M = inr (M, O).
Proof.
  unfold solve_kepler. destruct (Req_dec_T 0 0) as [_|Hne]; [reflexivity|].
  contradiction Hne. reflexivity.
Qed.

Lemma residual_circular (M : R) : residual 0 M M = 0.
Proof.
  unfold residual, kepler_f. replace (M - 0 * sin M - M) with 0 by ring.
  apply Rabs_R0.
Qed.

Lemma seed_circular (cfg : Config) (M : R) : seed cfg 0 M = M.
Proof.
  unfold seed. destruct (high_eccentricity cfg) as [th|]; [|reflexivity].
  destruct (Rlt_dec th 0); [ring|reflexivity].
Qed.

(** What the Newton loop returns: the first outcome is an iterate within
    the allowed updates whose residual is below the tolerance, the
    second tells that no such iterate exists. *)
Lemma newton_spec (n : nat) (e M E : R) (k : nat) :
  match newton n e M E k with
  | inr (E', k') =>
      exists j, (j <= n)%nat /\ k' = (k + j)%nat /\
        E' = Nat.iter j (newton_step e M) E /\ residual e M E' < eps
  | inl err =>
      (forall j, (j <= n)%nat ->
         ~ residual e M (Nat.iter j (newton_step e M) E) < eps) /\
      err = mkNumericalError
              (residual e M (Nat.iter n (newton_step e M) E)) (k + n)
  end.
Proof.
  revert E k. induction n as [|n IH]; intros E k; simpl.
  - destruct (Rlt_dec (residual e M E) eps) as [Hc|Hc].
    + exists O. repeat split; [lia|lia|assumption].
    + split; [|f_equal; lia].
      intros j Hj. replace j with O by lia. exact Hc.
  - destruct (Rlt_dec (residual e M E) eps) as [Hc|Hc].
    + exists O. repeat split; [lia|lia|assumption].
    + specialize (IH (newton_step e M E) (S k)).
      destruct (newton n e M (newton_step e M E) (S k)) as [err|[E' k']].
      * destruct IH as [Hall ->]. split.
        -- intros [|j] Hj; [exact Hc|].
           rewrite Nat.iter_succ_r. apply Hall. lia.
        -- rewrite <- Nat.iter_succ_r. f_equal. lia.
      * destruct IH as (j & Hj & -> & -> & Hres).
        exists (S j). rewrite Nat.iter_succ_r.
        repeat split; [lia|lia|assumption].
Qed.

(** The same for the solver, from the seed. *)
Lemma solve_kepler_spec (cfg : Config) (e M : R) :
  match solve_kepler cfg e M with
  | inr (E, k) =>
      (k <= cap cfg)%nat /\ E = iterate cfg e M k /\ residual e M E < eps
  | inl err =>
      (forall j, (j <= cap cfg)%nat -> ~ residual e M (iterate cfg e M j) < eps) /\
      err = mkNumericalError (residual e M (iterate cfg e M (cap cfg))) (cap cfg)
  end.
Proof.
  unfold solve_kepler, iterate. destruct (Req_dec_T e 0) as [->|Hne].
  - split; [lia|]. simpl. rewrite seed_circular, residual_circular.
    split; [reflexivity|apply eps_pos].
  - pose proof (newton_spec (cap cfg) e M (seed cfg e M) O) as H.
    destruct (newton _ _ _ _ _) as [err|[E k]].
    + exact H.
    + destruct H as (j & Hj & -> & -> & Hres). auto.
Qed.

Lemma propagate_spec (cfg : Config) (el : Elements) (gm dt : R) :
  propagate cfg el gm dt
  = match solve_kepler cfg (el_e el) (mean_anomaly el gm dt) with
    | inl err => inl err
    | inr (E, _) => inr (position_at el E)
    end.
Proof. reflexivity. Qed.

(** A seed that already satisfies the tolerance is returned as it is. *)
Lemma propagate_seed_converged (cfg : Config) (el : Elements) (gm dt : R) :
  el_e el <> 0 ->
  residual (el_e el) (mean_anomaly el gm dt)
    (seed cfg (el_e el) (mean_anomaly el gm dt)) < eps ->
  propagate cfg el gm dt
  = inr (position_at el (seed cfg (el_e el) (mean_anomaly el gm dt))).
Proof.
  intros Hne Hres. rewrite propagate_spec. unfold solve_kepler.
  destruct (Req_dec_T (el_e el) 0) as [He|_]; [contradiction|].
  destruct (cap cfg); simpl;
    (destruct (Rlt_dec _ eps) as [_|Hn]; [reflexivity|contradiction]).
Qed.

Lemma mean_anomaly_at_epoch (el : Elements) (gm : R) :
  0 <= el_M0 el < 2 * PI -> mean_anomaly el gm 0 = el_M0 el.
Proof.
  intros H. unfold mean_anomaly.
  rewrite Rmult_0_r, Rplus_0_r. apply normalize_angle_fixed, H.
Qed.

(** A solution of Kepler's equation is a fixed point of the Newton
    update, so a seed that solves it is every iterate. *)
Lemma newton_step_fixed (e M E : R) :
  kepler_f e M E = 0 -> newton_step e M E = E.
Proof.
  intros H. unfold newton_step. rewrite H. unfold Rdiv.
  rewrite Rmult_0_l. ring.
Qed.

Lemma iterate_fixed (cfg : Config) (e M : R) (k : nat) :
  kepler_f e M (seed cfg e M) = 0 -> iterate cfg e M k = seed cfg e M.
Proof.
  intros H. unfold iterate. induction k as [|k IH]; [reflexivity|].
  rewrite Nat.iter_succ, IH. apply newton_step_fixed, H.
Qed.

(** Whichever seed the solver uses, some orbit of eccentricity 0.999999
    converges at the seed: mean anomaly 0 for the seed [M], mean anomaly
    [pi/2 - e] for the seed [M + e]. *)
Lemma near_parabolic_converges (high : option R) :
  exists M0 p,
    propagate (cap_50 high) (near_parabolic M0) 1 0 = inr p.
Proof.
  pose proof PI2_1 as Hpi. pose proof eps_pos as Heps.
  assert (Hne : el_e (near_parabolic 0) <> 0) by (simpl; lra).
  destruct high as [th|]; [destruct (Rlt_dec th 0.999999) as [Hth|Hth]|].
  - exists (PI / 2 - 0.999999). eexists.
    apply propagate_seed_converged; [simpl; lra|].
    rewrite mean_anomaly_at_epoch by (simpl; lra). simpl.
    unfold seed. simpl. destruct (Rlt_dec th 0.999999); [|contradiction].
    unfold residual, kepler_f.
    replace (PI / 2 - 0.999999 + 0.999999) with (PI / 2) by ring.
    rewrite sin_PI2.
    replace (PI / 2 - 0.999999 * 1 - (PI / 2 - 0.999999)) with 0 by ring.
    rewrite Rabs_R0. exact Heps.
  - exists 0. eexists.
    apply propagate_seed_converged; [simpl; lra|].
    rewrite mean_anomaly_at_epoch by (simpl; lra). simpl.
    unfold seed. simpl. destruct (Rlt_dec th 0.999999); [contradiction|].
    unfold residual, kepler_f. rewrite sin_0.
    replace (0 - 0.999999 * 0 - 0) with 0 by ring.
    rewrite Rabs_R0. exact Heps.
  - exists 0. eexists.
    apply propagate_seed_converged; [simpl; lra|].
    rewrite mean_anomaly_at_epoch by (simpl; lra). simpl.
    unfold seed. simpl.
    unfold residual, kepler_f. rewrite sin_0.
    replace (0 - 0.999999 * 0 - 0) with 0 by ring.
    rewrite Rabs_R0. exact Heps.
Qed.

(** With no update allowed, the orbit of eccentricity 0.999999 and mean
    anomaly [pi/2] fails with the residual 0.999999 of its seed. *)
Lemma near_parabolic_fails_without_updates :
  propagate (mkConfig 0 None) (near_parabolic (PI / 2)) 1 0
  = inl (mkNumericalError 0.999999 0).
Proof.
  pose proof PI2_1 as Hpi. pose proof PI_RGT_0 as Hpi0.
  rewrite propagate_spec, mean_anomaly_at_epoch by (simpl; lra). simpl.
  unfold solve_kepler. destruct (Req_dec_T 0.999999 0) as [He|_]; [lra|].
  simpl. unfold seed. simpl.
  assert (Hres : residual 0.999999 (PI / 2) (PI / 2) = 0.999999).
  { unfold residual, kepler_f. rewrite sin_PI2.
    replace (PI / 2 - 0.999999 * 1 - PI / 2) with (- (0.999999)) by lra.
    rewrite Rabs_Ropp. apply Rabs_pos_eq. lra. }
  rewrite Hres. destruct (Rlt_dec 0.999999 eps) as [Hlt|_]; [|reflexivity].
  unfold eps in Hlt. lra.
Qed.

(** C6, as stated, does not hold: with cap 50, whichever seed the
    solver uses, not every element set of eccentricity 0.999999 ends in
    a [NumericalError]. *)
Lemma not_every_near_parabolic_orbit_fails :
  ~ (exists high : option R,
       forall (el : Elements) (gm dt : R),
         el_e el = 0.999999 ->
         exists err, propagate (mkConfig 50 high) el gm dt = inl err).
Proof.
  intros [high H]. destruct (near_parabolic_converges high) as (M0 & p & Hp).
  destruct (H (near_parabolic M0) 1 0 eq_refl) as [err Herr].
  unfold cap_50 in Hp. rewrite Hp in Herr. discriminate.
Qed.

(** C6, amended. [propagate] ends in a [NumericalError] exactly when
    none of the iterates the cap allows, the seed included, has a
    residual below the tolerance; the error carries the last residual
    and the cap; and a returned position is always that of an iterate
    whose residual is below the tolerance. *)
Theorem propagate_fails_iff_cap_reached_unconverged
    (cfg : Config) (el : Elements) (gm dt : R) :
  let e := el_e el in
  let M := mean_anomaly el gm dt in
  ((exists err, propagate cfg el gm dt = inl err) <->
   (forall k, (k <= cap cfg)%nat -> ~ residual e M (iterate cfg e M k) < eps)) /\
  (forall err, propagate cfg el gm dt = inl err ->
     err = mkNumericalError (residual e M (iterate cfg e M (cap cfg))) (cap cfg)) /\
  (forall p, propagate cfg el gm dt = inr p ->
     exists k, (k <= cap cfg)%nat /\
       residual e M (iterate cfg e M k) < eps /\
       p = position_at el (iterate cfg e M k)).
Proof.
  intros e M. rewrite propagate_spec. fold e M.
  pose proof (solve_kepler_spec cfg e M) as H.
  destruct (solve_kepler cfg e M) as [err|[E k]].
  - destruct H as [Hall ->]. split; [|split].
    + split; [intros _; exact Hall|intros _; eauto].
    + intros err [= <-]. reflexivity.
    + intros p [=].
  - destruct H as (Hk & -> & Hres). split; [|split].
    + split; [intros [err [=]]|]. intros Hall. destruct (Hall k Hk Hres).
    + intros err [=].
    + intros p [= <-]. exists k. auto.
Qed.

(** The parent-frame coordinates of the point of the orbital plane at
    distance [r] and angle [nu] from periapsis. *)
Lemma to_parent_frame_perifocal (el : Elements) (r nu : R) :
  to_parent_frame el (perifocal r nu)
  = mkVector3
      (r * (cos (el_omega el + nu) * cos (el_Omega el)
            - sin (el_omega el + nu) * cos (el_i el) * sin (el_Omega el)))
      (r * (cos (el_omega el + nu) * sin (el_Omega el)
            + sin (el_omega el + nu) * cos (el_i el) * cos (el_Omega el)))
      (r * (sin (el_omega el + nu) * sin (el_i el))).
Proof.
  unfold to_parent_frame, incline, perifocal.
  rewrite cos_plus, sin_plus.
  destruct (Req_dec_T (el_i el) 0) as [Hi|Hi].
  - rewrite Hi, cos_0, sin_0. unfold rot_z. simpl. f_equal; ring.
  - unfold rot_z, rot_x. simpl. f_equal; ring.
Qed.

(** Three facts of plane trigonometry used below, on the cosines and
    sines of the three orientation angles and of the anomaly. *)
Lemma along_periapsis (a cO sO ci si co so cM sM : R) :
  cO * cO + sO * sO = 1 -> ci * ci + si * si = 1 -> co * co + so * so = 1 ->
  a * ((co * cM - so * sM) * cO - (so * cM + co * sM) * ci * sO)
    * (co * cO - so * ci * sO)
  + a * ((co * cM - so * sM) * sO + (so * cM + co * sM) * ci * cO)
    * (co * sO + so * ci * cO)
  + a * ((so * cM + co * sM) * si) * (so * si)
  = a * cM.
Proof.
  intros HO Hi Ho.
  transitivity
    (a * (cM * ((co * co) * (cO * cO + sO * sO)
                + (so * so) * ((ci * ci) * (cO * cO + sO * sO) + si * si))
          + sM * (co * so) * ((ci * ci) * (cO * cO + sO * sO) + si * si
                               - (cO * cO + sO * sO)))); [ring|].
  rewrite HO, !Rmult_1_r, Hi, !Rmult_1_r, Ho. ring.
Qed.

Lemma across_periapsis (a cO sO ci si co so cM sM : R) :
  cO * cO + sO * sO = 1 -> ci * ci + si * si = 1 -> co * co + so * so = 1 ->
  a * ((co * cM - so * sM) * cO - (so * cM + co * sM) * ci * sO)
    * (- so * cO - co * ci * sO)
  + a * ((co * cM - so * sM) * sO + (so * cM + co * sM) * ci * cO)
    * (- so * sO + co * ci * cO)
  + a * ((so * cM + co * sM) * si) * (co * si)
  = a * sM.
Proof.
  intros HO Hi Ho.
  transitivity
    (a * (sM * ((so * so) * (cO * cO + sO * sO)
                + (co * co) * ((ci * ci) * (cO * cO + sO * sO) + si * si))
          + cM * (co * so) * ((ci * ci) * (cO * cO + sO * sO) + si * si
                               - (cO * cO + sO * sO)))); [ring|].
  rewrite HO, !Rmult_1_r, Hi, !Rmult_1_r.
  replace (so * so + co * co) with 1 by lra. ring.
Qed.

Lemma cos2_sin2 (x : R) : cos x * cos x + sin x * sin x = 1.
Proof. pose proof (sin2_cos2 x) as H. unfold Rsqr in H. lra. Qed.

Lemma squared_distance (cO sO ci si cu su : R) :
  cO * cO + sO * sO = 1 -> ci * ci + si * si = 1 -> cu * cu + su * su = 1 ->
  (cu * cO - su * ci * sO) * (cu * cO - su * ci * sO)
  + (cu * sO + su * ci * cO) * (cu * sO + su * ci * cO)
  + (su * si) * (su * si)
  = 1.
Proof.
  intros HO Hi Hu.
  transitivity
    ((cu * cu) * (cO * cO + sO * sO)
     + (su * su) * ((ci * ci) * (cO * cO + sO * sO) + si * si)); [ring|].
  rewrite HO, !Rmult_1_r, Hi, !Rmult_1_r. exact Hu.
Qed.

Lemma mean_anomaly_unfolded (el : Elements) (gm dt : R) :
  exists k : Z,
    mean_anomaly el gm dt
    = el_M0 el + sqrt (gm / (el_a el * el_a el * el_a el)) * dt
      - 2 * PI * IZR k.
Proof. eexists. reflexivity. Qed.

(** C7. On a circular orbit ([e = 0]), whatever the semi-major axis and
    the time offset, the solver returns [E = M] without any update, and
    the true anomaly is the mean anomaly [M = M0 + sqrt (gm / a^3) dt]
    brought into [[0, 2 pi)].  The position returned has the
    coordinates of the point at argument of latitude [omega + M] of the
    orbit of inclination [i] and node [Omega]; its components along the
    periapsis direction and along the direction a quarter turn ahead of
    it in the orbital plane are [a cos M] and [a sin M], and its
    distance from the parent is [a] when [a > 0]: its angle from
    periapsis is [M]. *)
Theorem circular_orbit_short_circuits
    (cfg : Config) (el : Elements) (gm dt : R) :
  el_e el = 0 ->
  let a := el_a el in
  let i := el_i el in
  let Omega := el_Omega el in
  let omega := el_omega el in
  let M := mean_anomaly el gm dt in
  solve_kepler cfg (el_e el) M = inr (M, O) /\
  (exists k : Z, M = el_M0 el + sqrt (gm / (a * a * a)) * dt - 2 * PI * IZR k) /\
  0 <= M < 2 * PI /\
  true_anomaly (el_e el) M = M /\
  propagate cfg el gm dt = inr (to_parent_frame el (perifocal a M)) /\
  exists x y z,
    propagate cfg el gm dt = inr (mkVector3 x y z) /\
    x = a * (cos (omega + M) * cos Omega
             - sin (omega + M) * cos i * sin Omega) /\
    y = a * (cos (omega + M) * sin Omega
             + sin (omega + M) * cos i * cos Omega) /\
    z = a * (sin (omega + M) * sin i) /\
    x * (cos omega * cos Omega - sin omega * cos i * sin Omega)
    + y * (cos omega * sin Omega + sin omega * cos i * cos Omega)
    + z * (sin omega * sin i)
    = a * cos M /\
    x * (- sin omega * cos Omega - cos omega * cos i * sin Omega)
    + y * (- sin omega * sin Omega + cos omega * cos i * cos Omega)
    + z * (cos omega * sin i)
    = a * sin M /\
    x * x + y * y + z * z = a * a /\
    (0 < a -> sqrt (x * x + y * y + z * z) = a).
Proof.
  intros He a i Omega omega M.
  pose proof (normalize_angle_range
    (el_M0 el + mean_motion gm (el_a el) * dt)) as HM.
  fold (mean_anomaly el gm dt) in HM. fold M in HM.
  assert (Hp : propagate cfg el gm dt = inr (to_parent_frame el (perifocal a M))).
  { rewrite propagate_spec, He. fold M. rewrite solve_kepler_circular.
    unfold position_at. rewrite He, true_anomaly_circular by exact HM.
    unfold radius. do 3 f_equal. unfold a. ring. }
  split; [rewrite He; apply solve_kepler_circular|].
  split; [apply mean_anomaly_unfolded|].
  split; [exact HM|].
  split; [rewrite He; apply true_anomaly_circular, HM|].
  split; [exact Hp|].
  rewrite to_parent_frame_perifocal in Hp. fold omega Omega i in Hp.
  do 3 eexists. split; [exact Hp|].
  split; [reflexivity|]. split; [reflexivity|]. split; [reflexivity|].
  pose proof (cos2_sin2 Omega) as HO. pose proof (cos2_sin2 i) as Hi.
  pose proof (cos2_sin2 omega) as Ho. pose proof (cos2_sin2 (omega + M)) as Hu.
  assert (Hsq :
    a * (cos (omega + M) * cos Omega - sin (omega + M) * cos i * sin Omega)
    * (a * (cos (omega + M) * cos Omega - sin (omega + M) * cos i * sin Omega))
    + a * (cos (omega + M) * sin Omega + sin (omega + M) * cos i * cos Omega)
      * (a * (cos (omega + M) * sin Omega + sin (omega + M) * cos i * cos Omega))
    + a * (sin (omega + M) * sin i) * (a * (sin (omega + M) * sin i))
    = a * a).
  { rewrite <- (Rmult_1_r (a * a)),
      <- (squared_distance _ _ _ _ _ _ HO Hi Hu). ring. }
  split; [|split; [|split]].
  - rewrite cos_plus, sin_plus. apply along_periapsis; assumption.
  - rewrite cos_plus, sin_plus. apply across_periapsis; assumption.
  - exact Hsq.
  - intros Ha. rewrite Hsq. apply sqrt_square. lra.
Qed.

(** C7 on a sample: the unit circular orbit, one day after the epoch,
    is at distance 1 from its parent. *)
Lemma circular_orbit_short_circuits_witness :
  el_e circular_orbit = 0 /\
  exists x y z,
    propagate (cap_50 None) circular_orbit 1 86400 = inr (mkVector3 x y z) /\
    x = 1 * (cos (0 + mean_anomaly circular_orbit 1 86400) * cos 0
             - sin (0 + mean_anomaly circular_orbit 1 86400) * cos 0 * sin 0) /\
    sqrt (x * x + y * y + z * z) = 1.
Proof.
  split; [reflexivity|].
  destruct (circular_orbit_short_circuits (cap_50 None) circular_orbit 1 86400
              eq_refl)
    as (_ & _ & _ & _ & _ & x & y & z & Hp & Hx & _ & _ & _ & _ & _ & Hn).
  exists x, y, z. split; [exact Hp|]. split; [exact Hx|].
  apply Hn. simpl. lra.
Defined.

End Kepler.

(** * The comprehensions on an arbitrary table *)

(** ** Closed forms

    Each comprehension stops at the first record it cannot process and
    otherwise returns what a filter and a map, or a fold, give. *)

Lemma DEFAULT_BODIES_comp_closed_form (bodies : list PyVal) :
  DEFAULT_BODIES_comp bodies
  = match List.find (fun b => negb (DEFAULT_BODIES_accepts b)) bodies with
    | Some bad => raise (DEFAULT_BODIES_error bad)
    | None => ok (omap (fun b => field b "id") (List.filter listed bodies))
    end.
Proof.
  induction bodies as [|body rest IH]; [reflexivity|].
  cbn [DEFAULT_BODIES_comp List.find List.filter].
  rewrite IH. clear IH.
  generalize (List.find (fun b => negb (DEFAULT_BODIES_accepts b)) rest).
  generalize (List.filter listed rest).
  intros L F.
  destruct body as [| | | | | |d]; try reflexivity.
  unfold DEFAULT_BODIES_accepts, DEFAULT_BODIES_error, listed, has_parent,
    is_10, has_key, is_dict, py_get, py_getitem, field.
  destruct (dict_lookup d (PyStr "parent")) as [v|];
    destruct (dict_lookup d (PyStr "id")) as [i|] eqn:Hi;
    cbn [bind ok raise is_None];
    try destruct (is_None v);
    try destruct (py_eqb i (PyInt 10));
    destruct F; simpl; rewrite ?Hi; reflexivity.
Qed.

Lemma PARENT_MAP_comp_closed_form (bodies : list PyVal) (acc : list (PyVal * PyVal)) :
  PARENT_MAP_comp acc bodies
  = match List.find (fun b => negb (PARENT_MAP_accepts b)) bodies with
    | Some bad => raise (PARENT_MAP_error bad)
    | None => ok (fold_left store_record (List.filter has_parent bodies) acc)
    end.
Proof.
  revert acc. induction bodies as [|body rest IH]; intros acc; [reflexivity|].
  cbn [PARENT_MAP_comp List.find List.filter].
  destruct body as [| | | | | |d]; try reflexivity.
  unfold PARENT_MAP_accepts, PARENT_MAP_error, has_parent, store_record,
    py_getitem, dict_setitem, field.
  destruct (dict_lookup d (PyStr "parent")) as [v|] eqn:Hp;
    cbn [bind ok raise]; [|simpl; rewrite Hp; reflexivity].
  destruct (is_None v); cbn [negb orb fold_left]; [apply IH|].
  destruct (dict_lookup d (PyStr "id")) as [k|] eqn:Hi;
    cbn [bind ok raise]; [|simpl; rewrite Hp, Hi; reflexivity].
  destruct (hashable k); cbn [bind ok raise negb];
    [|simpl; rewrite Hp, Hi; reflexivity].
  rewrite IH. cbn [fold_left field]. rewrite ?Hp, ?Hi. reflexivity.
Qed.

Lemma py_eqb_int_functional (v : PyVal) (a b : Z) :
  py_eqb v (PyInt a) = true -> py_eqb v (PyInt b) = true -> a = b.
Proof.
  destruct v as [|c|z|f|s|l|d]; simpl; try discriminate.
  - intros Ha%Z.eqb_eq Hb%Z.eqb_eq. congruence.
  - intros Ha%Z.eqb_eq Hb%Z.eqb_eq. congruence.
  - unfold float_eq_Z. destruct (Prim2SF f) as [s| | |s m e]; try discriminate.
    + intros Ha%Z.eqb_eq Hb%Z.eqb_eq. congruence.
    + destruct (0 <=? e) eqn:He.
      * intros Ha%Z.eqb_eq Hb%Z.eqb_eq. congruence.
      * intros Ha%Z.eqb_eq Hb%Z.eqb_eq. apply Z.leb_gt in He.
        assert (Hp : 0 < 2 ^ (- e)) by (apply Z.pow_pos_nonneg; lia).
        apply (Z.mul_cancel_r _ _ (2 ^ (- e))); lia.
Qed.

Lemma dict_lookup_store_int (d : list (PyVal * PyVal)) (a k : Z) (v : PyVal) :
  dict_lookup (dict_store d (PyInt a) v) (PyInt k)
  = if a =? k then Some v else dict_lookup d (PyInt k).
Proof.
  induction d as [|[k' v'] d IH]; simpl; [reflexivity|].
  destruct (py_eqb k' (PyInt a)) eqn:Ha; simpl.
  - destruct (Z.eqb_spec a k) as [->|Hne]; [rewrite Ha; reflexivity|].
    destruct (py_eqb k' (PyInt k)) eqn:Hk; [|reflexivity].
    contradiction Hne. exact (py_eqb_int_functional _ _ _ Ha Hk).
  - rewrite IH. destruct (Z.eqb_spec a k) as [->|Hne]; [|reflexivity].
    rewrite Ha. reflexivity.
Qed.

Lemma find_none_forallb {A} (f : A -> bool) (l : list A) :
  List.find (fun x => negb (f x)) l = None <-> forallb f l = true.
Proof.
  induction l as [|x l IH]; simpl; [tauto|].
  destruct (f x); simpl; [exact IH|]. split; discriminate.
Qed.

Lemma PARENT_MAP_accepts_DEFAULT_BODIES (body : PyVal) :
  PARENT_MAP_accepts body = true -> DEFAULT_BODIES_accepts body = true.
Proof.
  unfold PARENT_MAP_accepts, DEFAULT_BODIES_accepts, listed, has_parent,
    is_10, has_key, is_dict, field.
  destruct body as [| | | | | |d]; try discriminate.
  destruct (dict_lookup d (PyStr "parent")) as [v|]; [|discriminate].
  destruct (dict_lookup d (PyStr "id")) as [i|]; simpl.
  - intros _. destruct (negb (is_None v) || py_eqb i (PyInt 10)); reflexivity.
  - destruct (is_None v); simpl; [reflexivity|discriminate].
Qed.

Lemma find_app_first {A} (f : A -> bool) (l l' : list A) :
  List.find f (l ++ l')%list
  = match List.find f l with
    | Some x => Some x
    | None => List.find f l'
    end.
Proof.
  induction l as [|x l IH]; simpl; [reflexivity|].
  destruct (f x); [reflexivity|exact IH].
Qed.

Lemma find_first_rejected {A} (f : A -> bool) (pre post : list A) (bad : A) :
  forallb f pre = true -> f bad = false ->
  List.find (fun x => negb (f x)) (pre ++ bad :: post)%list = Some bad.
Proof.
  intros Hpre Hbad. apply find_none_forallb in Hpre.
  rewrite find_app_first, Hpre. simpl. rewrite Hbad. reflexivity.
Qed.

(** ** Errors *)

(** X1. [DEFAULT_BODIES] is defined when every record is a dict and
    every listed record has an ["id"]: it is then the ["id"] of the
    records that have a parent or the id 10, in table order.  Otherwise
    the first record that fails this decides the exception:
    [AttributeError] when it is not a dict, [KeyError "id"] when it is.
    A record without the key ["parent"] raises nothing. *)
Theorem DEFAULT_BODIES_comp_outcome (bodies : list PyVal) :
  (forallb DEFAULT_BODIES_accepts bodies = true ->
   DEFAULT_BODIES_comp bodies
   = ok (omap (fun b => field b "id") (List.filter listed bodies))) /\
  (forall pre bad post,
     bodies = (pre ++ bad :: post)%list ->
     forallb DEFAULT_BODIES_accepts pre = true ->
     DEFAULT_BODIES_accepts bad = false ->
     DEFAULT_BODIES_comp bodies = raise (DEFAULT_BODIES_error bad)).
Proof.
  rewrite DEFAULT_BODIES_comp_closed_form. split.
  - intros H%find_none_forallb. rewrite H. reflexivity.
  - intros pre bad post -> Hpre Hbad.
    rewrite (find_first_rejected _ pre post bad Hpre Hbad). reflexivity.
Qed.

(** X2. [PARENT_MAP] is defined when every record is a dict with the key
    ["parent"] and every record with a parent has a hashable ["id"]: it
    is then the result of storing, from left to right, the parent of
    each record that has one under its id.  Otherwise the first record
    that fails this decides the exception: [TypeError] when it is not a
    dict or its id is unhashable, [KeyError] for the missing ["parent"]
    or ["id"]. *)
Theorem PARENT_MAP_comp_outcome (bodies : list PyVal) (acc : list (PyVal * PyVal)) :
  (forallb PARENT_MAP_accepts bodies = true ->
   PARENT_MAP_comp acc bodies
   = ok (fold_left store_record (List.filter has_parent bodies) acc)) /\
  (forall pre bad post,
     bodies = (pre ++ bad :: post)%list ->
     forallb PARENT_MAP_accepts pre = true ->
     PARENT_MAP_accepts bad = false ->
     PARENT_MAP_comp acc bodies = raise (PARENT_MAP_error bad)).
Proof.
  rewrite PARENT_MAP_comp_closed_form. split.
  - intros H%find_none_forallb. rewrite H. reflexivity.
  - intros pre bad post -> Hpre Hbad.
    rewrite (find_first_rejected _ pre post bad Hpre Hbad). reflexivity.
Qed.

(** X3. Whenever [PARENT_MAP] is defined for a table, so is
    [DEFAULT_BODIES]; the converse fails for a record without the key
    ["parent"], which [DEFAULT_BODIES] skips and [PARENT_MAP] rejects. *)
Theorem PARENT_MAP_defined_implies_DEFAULT_BODIES_defined :
  (forall (bodies : list PyVal) (acc d : list (PyVal * PyVal)),
     PARENT_MAP_comp acc bodies = ok d ->
     exists l, DEFAULT_BODIES_comp bodies = ok l) /\
  DEFAULT_BODIES_comp [PyDict ["id" ::= PyInt 301; "name" ::= PyStr "Moon"]]
    = ok [] /\
  PARENT_MAP_comp [] [PyDict ["id" ::= PyInt 301; "name" ::= PyStr "Moon"]]
    = raise (KeyError (PyStr "parent")).
Proof.
  split; [|split; reflexivity].
  intros bodies acc d H.
  rewrite PARENT_MAP_comp_closed_form in H.
  rewrite DEFAULT_BODIES_comp_closed_form.
  destruct (List.find _ bodies) as [bad|] eqn:Hf in H; [discriminate|].
  apply find_none_forallb in Hf.
  assert (Hd : forallb DEFAULT_BODIES_accepts bodies = true).
  { rewrite forallb_forall in *. intros x Hx.
    apply PARENT_MAP_accepts_DEFAULT_BODIES, Hf, Hx. }
  apply find_none_forallb in Hd. rewrite Hd. eauto.
Qed.

(** ** What [PARENT_MAP] holds *)

Lemma dict_keys_elem (d : list (PyVal * PyVal)) (kv : PyVal * PyVal) :
  kv ∈ d -> kv.1 ∈ dict_keys d.
Proof.
  intros H%list_elem_of_In. apply list_elem_of_In, in_map, H.
Qed.

Lemma dict_store_elem (d : list (PyVal * PyVal)) (k0 v0 : PyVal) (kv : PyVal * PyVal) :
  kv ∈ dict_store d k0 v0 ->
  (kv.1 ∈ dict_keys d \/ kv.1 = k0) /\ (kv ∈ d \/ kv.2 = v0).
Proof.
  induction d as [|[k' v'] d IH]; simpl.
  - intros ->%list_elem_of_singleton. simpl. auto.
  - destruct (py_eqb k' k0).
    + intros [->|H]%elem_of_cons; simpl.
      * split; [left; left|right; reflexivity].
      * split; [left; right; apply dict_keys_elem, H|].
        left. right. exact H.
    + intros [->|H]%elem_of_cons; simpl.
      * split; left; left.
      * destruct (IH H) as [[H1|H1] [H2|H2]]; split; auto;
          left; right; assumption.
Qed.

Lemma has_parent_field (body : PyVal) :
  has_parent body = true ->
  exists v, field body "parent" = Some v /\ is_None v = false.
Proof.
  unfold has_parent. destruct (field body "parent") as [v|]; [|discriminate].
  intros H%negb_true_iff. eauto.
Qed.

Lemma fold_store_elem (rs : list PyVal) (acc : list (PyVal * PyVal))
    (kv : PyVal * PyVal) :
  kv ∈ fold_left store_record rs acc ->
  kv.1 ∈ dict_keys acc \/
  exists r, r ∈ rs /\ field r "id" = Some kv.1.
Proof.
  revert acc. induction rs as [|r rs IH]; intros acc; simpl.
  - intros H. left. apply dict_keys_elem, H.
  - intros H. destruct (IH _ H) as [Hk|(r' & Hr & Hid)].
    + unfold store_record in Hk.
      destruct (field r "id") as [k|] eqn:Hi;
        [destruct (field r "parent") as [v|]|]; auto.
      apply list_elem_of_In, in_map_iff in Hk as (kv' & Heq & Hin).
      apply list_elem_of_In, dict_store_elem in Hin as [[Hin|Hk'] _].
      * left. rewrite <- Heq. exact Hin.
      * right. exists r. split; [left|]. congruence.
    + right. exists r'. split; [right; exact Hr|exact Hid].
Qed.

Lemma fold_store_values (rs : list PyVal) (acc : list (PyVal * PyVal)) :
  Forall (fun r => has_parent r = true) rs ->
  Forall (fun kv => is_None kv.2 = false) acc ->
  Forall (fun kv => is_None kv.2 = false) (fold_left store_record rs acc).
Proof.
  revert acc. induction rs as [|r rs IH]; intros acc Hrs Hacc; [exact Hacc|].
  inversion Hrs as [|? ? Hr Hrs']; subst. simpl. apply IH; [exact Hrs'|].
  unfold store_record.
  destruct (has_parent_field r Hr) as (v & Hv & Hn). rewrite Hv.
  destruct (field r "id") as [k|]; [|exact Hacc].
  apply Forall_forall. intros kv [_ [Hin| ->]]%dict_store_elem.
  - rewrite Forall_forall in Hacc. apply Hacc, Hin.
  - exact Hn.
Qed.

Lemma filter_has_parent_Forall (bodies : list PyVal) :
  Forall (fun r => has_parent r = true) (List.filter has_parent bodies).
Proof.
  apply Forall_forall. intros r Hr%list_elem_of_In.
  apply filter_In in Hr as [_ Hr]. exact Hr.
Qed.

(** X4. No value of [PARENT_MAP] is [None]: a record without parent
    leaves no entry, whatever the table. *)
Theorem PARENT_MAP_values_not_None
    (bodies : list PyVal) (d : list (PyVal * PyVal)) :
  PARENT_MAP_comp [] bodies = ok d ->
  forall k v, (k, v) ∈ d -> is_None v = false.
Proof.
  rewrite PARENT_MAP_comp_closed_form.
  destruct (List.find _ bodies); [discriminate|]. intros [= <-] k v Hin.
  pose proof (fold_store_values _ [] (filter_has_parent_Forall bodies)
                (List.Forall_nil _)) as H.
  rewrite Forall_forall in H. exact (H _ Hin).
Qed.

(** X5. Every key of [PARENT_MAP] is an element of [DEFAULT_BODIES],
    whatever the table. *)
Theorem PARENT_MAP_keys_in_DEFAULT_BODIES
    (bodies : list PyVal) (d : list (PyVal * PyVal)) (l : list PyVal) :
  PARENT_MAP_comp [] bodies = ok d ->
  DEFAULT_BODIES_comp bodies = ok l ->
  forall k, k ∈ dict_keys d -> k ∈ l.
Proof.
  rewrite PARENT_MAP_comp_closed_form, DEFAULT_BODIES_comp_closed_form.
  destruct (List.find _ bodies); [discriminate|].
  destruct (List.find _ bodies); [discriminate|].
  intros [= <-] [= <-] k Hk.
  apply list_elem_of_In, in_map_iff in Hk as (kv & <- & Hin).
  apply list_elem_of_In, fold_store_elem in Hin as [Hin|(r & Hr & Hid)].
  - inversion Hin.
  - apply list_elem_of_omap. exists r. split; [|exact Hid].
    apply list_elem_of_In, filter_In.
    apply list_elem_of_In, filter_In in Hr as [Hr Hp].
    split; [exact Hr|]. unfold listed. rewrite Hp. reflexivity.
Qed.

Lemma int_id_if_parent_field (body : PyVal) :
  int_id_if_parent body = true -> has_parent body = true ->
  exists i v, field body "id" = Some (PyInt i) /\
    field body "parent" = Some v /\ is_None v = false.
Proof.
  unfold int_id_if_parent. intros H Hp. rewrite Hp in H. simpl in H.
  apply bool_decide_eq_true in H as [i Hi]. apply int_field_Some in Hi.
  destruct (has_parent_field body Hp) as (v & Hv & Hn). eauto.
Qed.

Lemma fold_store_lookup (k : Z) (bodies : list PyVal) (acc : list (PyVal * PyVal)) :
  forallb int_id_if_parent bodies = true ->
  dict_lookup (fold_left store_record (List.filter has_parent bodies) acc) (PyInt k)
  = match last_parent k bodies with
    | Some v => Some v
    | None => dict_lookup acc (PyInt k)
    end.
Proof.
  revert acc. induction bodies as [|body rest IH]; intros acc; [reflexivity|].
  simpl. intros [Hb Hrest]%andb_true_iff.
  destruct (has_parent body) eqn:Hp; simpl.
  - destruct (int_id_if_parent_field body Hb Hp) as (i & v & Hi & Hv & _).
    rewrite (IH _ Hrest). destruct (last_parent k rest); [reflexivity|].
    unfold store_record. rewrite Hi, Hv, dict_lookup_store_int.
    apply int_field_Some in Hi. rewrite Hi.
    destruct (Z.eqb_spec i k) as [->|Hne].
    + rewrite bool_decide_eq_true_2 by reflexivity. reflexivity.
    + rewrite bool_decide_eq_false_2 by congruence. reflexivity.
  - rewrite (IH _ Hrest). destruct (last_parent k rest); reflexivity.
Qed.

(** X6. When the records that have a parent have [int] ids,
    [PARENT_MAP] maps an id to the parent of the last record of the
    table with this id and a parent, and has no entry for an id no such
    record has: of two records with one id the later one wins. *)
Theorem PARENT_MAP_last_record_wins
    (bodies : list PyVal) (d : list (PyVal * PyVal)) :
  forallb int_id_if_parent bodies = true ->
  PARENT_MAP_comp [] bodies = ok d ->
  forall k, dict_lookup d (PyInt k) = last_parent k bodies.
Proof.
  intros Hint. rewrite PARENT_MAP_comp_closed_form.
  destruct (List.find _ bodies); [discriminate|]. intros [= <-] k.
  rewrite (fold_store_lookup k bodies [] Hint).
  destruct (last_parent k bodies); reflexivity.
Qed.

Lemma last_parent_is_Some (k : Z) (bodies : list PyVal) :
  is_Some (last_parent k bodies) <->
  exists body, body ∈ bodies /\ has_parent body = true /\
    field body "id" = Some (PyInt k).
Proof.
  induction bodies as [|body rest IH]; simpl.
  - split; [intros [? [=]]|intros (b & Hb & _); inversion Hb].
  - destruct (last_parent k rest) as [v|] eqn:E.
    + split; [|eauto]. intros _.
      destruct (proj1 IH (mk_is_Some _ _ eq_refl)) as (b & Hb & H).
      exists b. split; [right; exact Hb|exact H].
    + split.
      * destruct (has_parent body) eqn:Hp; simpl; [|intros [? [=]]].
        destruct (bool_decide _) eqn:Hd; [|intros [? [=]]].
        apply bool_decide_eq_true, int_field_Some in Hd. intros _.
        exists body. split; [left|auto].
      * intros (b & [->|Hb]%elem_of_cons & Hp & Hi).
        -- rewrite Hp. apply int_field_Some in Hi.
           rewrite bool_decide_eq_true_2 by exact Hi. simpl.
           destruct (has_parent_field _ Hp) as (v & -> & _). eauto.
        -- destruct (proj2 IH) as [? [=]]. eauto.
Qed.

(** X7. When the records that have a parent have [int] ids, the [int]
    elements of [DEFAULT_BODIES] are the keys of [PARENT_MAP], and 10
    besides when the table has a record with id 10: the second disjunct
    of the filter adds the Sun and nothing else. *)
Theorem DEFAULT_BODIES_is_PARENT_MAP_keys_plus_10
    (bodies : list PyVal) (d : list (PyVal * PyVal)) (l : list PyVal) :
  forallb int_id_if_parent bodies = true ->
  PARENT_MAP_comp [] bodies = ok d ->
  DEFAULT_BODIES_comp bodies = ok l ->
  forall k,
    PyInt k ∈ l <->
    is_Some (dict_lookup d (PyInt k)) \/
    (k = 10 /\ exists body, body ∈ bodies /\ field body "id" = Some (PyInt 10)).
Proof.
  intros Hint Hd Hl k.
  rewrite PARENT_MAP_comp_closed_form in Hd.
  destruct (List.find _ bodies); [discriminate|]. injection Hd as <-.
  rewrite (fold_store_lookup k bodies [] Hint).
  replace (match last_parent k bodies with
           | Some v => Some v
           | None => dict_lookup [] (PyInt k)
           end) with (last_parent k bodies)
    by (destruct (last_parent k bodies); reflexivity).
  rewrite last_parent_is_Some.
  rewrite DEFAULT_BODIES_comp_closed_form in Hl.
  destruct (List.find _ bodies); [discriminate|]. injection Hl as <-.
  rewrite list_elem_of_omap. split.
  - intros (body & Hb & Hi). apply list_elem_of_In, filter_In in Hb as [Hb Hlisted].
    apply list_elem_of_In in Hb. unfold listed in Hlisted.
    destruct (has_parent body) eqn:Hp; [left; eauto|]. right.
    simpl in Hlisted. unfold is_10 in Hlisted. rewrite Hi in Hlisted.
    simpl in Hlisted. apply Z.eqb_eq in Hlisted as ->. eauto.
  - intros [(body & Hb & Hp & Hi)|(-> & body & Hb & Hi)]; exists body;
      (split; [|exact Hi]); apply list_elem_of_In, filter_In;
      (split; [apply list_elem_of_In, Hb|]); unfold listed.
    + rewrite Hp. reflexivity.
    + unfold is_10. rewrite Hi. simpl. apply orb_true_r.
Qed.

Lemma dict_store_fresh (d : list (PyVal * PyVal)) (k v : PyVal) :
  Forall (fun k' => py_eqb k' k = false) (dict_keys d) ->
  dict_store d k v = (d ++ [(k, v)])%list.
Proof.
  induction d as [|[k' v'] d IH]; simpl; [reflexivity|].
  intros H. inversion H as [|? ? Hk Hd]; subst. simpl in Hk.
  rewrite Hk, (IH Hd). reflexivity.
Qed.

Lemma fold_store_fresh (rs : list PyVal) (zs ys : list Z)
    (acc : list (PyVal * PyVal)) :
  map (fun r => field r "id") rs = map (fun z => Some (PyInt z)) zs ->
  Forall (fun r => has_parent r = true) rs ->
  dict_keys acc = map PyInt ys ->
  NoDup (ys ++ zs)%list ->
  dict_keys (fold_left store_record rs acc) = map PyInt (ys ++ zs)%list.
Proof.
  revert zs ys acc.
  induction rs as [|r rs IH]; intros [|z zs] ys acc; try discriminate.
  - intros _ _ Hacc _. rewrite app_nil_r. exact Hacc.
  - simpl. intros [= Hid Hids] Hrs Hacc Hnd.
    inversion Hrs as [|? ? Hr Hrs']; subst.
    destruct (has_parent_field r Hr) as (v & Hv & _).
    unfold store_record at 2. rewrite Hid, Hv.
    rewrite dict_store_fresh.
    + replace (ys ++ z :: zs)%list with ((ys ++ [z]) ++ zs)%list in *
        by (rewrite <- app_assoc; reflexivity).
      apply IH; [exact Hids|exact Hrs'| |exact Hnd].
      unfold dict_keys in *. rewrite !map_app, Hacc. reflexivity.
    + rewrite Hacc. apply Forall_forall.
      intros k' (y & <- & Hy)%list_elem_of_In%in_map_iff. simpl.
      apply Z.eqb_neq. intros ->.
      apply NoDup_app in Hnd as (_ & Hdisj & _).
      apply (Hdisj z); [apply list_elem_of_In, Hy|left].
Qed.

Lemma omap_of_map_Some {A B} (f : A -> option B) (l : list A) (l' : list B) :
  map f l = map Some l' -> omap f l = l'.
Proof.
  revert l'. induction l as [|x l IH]; intros [|y l']; try discriminate;
    [reflexivity|].
  simpl. intros [= Hx Hl]. rewrite Hx. f_equal. apply IH, Hl.
Qed.

(** X8. When every record is a dict with the key ["parent"], no record
    with id 10 lacks a parent, and the records that have a parent have
    pairwise distinct [int] ids, [PARENT_MAP] and [DEFAULT_BODIES] are
    both defined and the key list of the first is the second, in table
    order. *)
Theorem PARENT_MAP_keys_are_DEFAULT_BODIES (bodies : list PyVal) (zs : list Z) :
  forallb PARENT_MAP_accepts bodies = true ->
  forallb (fun b => has_parent b || negb (is_10 b)) bodies = true ->
  map (fun b => field b "id") (List.filter has_parent bodies)
    = map (fun z => Some (PyInt z)) zs ->
  NoDup zs ->
  exists d,
    PARENT_MAP_comp [] bodies = ok d /\
    dict_keys d = map PyInt zs /\
    DEFAULT_BODIES_comp bodies = ok (map PyInt zs).
Proof.
  intros Hacc H10 Hids Hnd.
  rewrite PARENT_MAP_comp_closed_form, DEFAULT_BODIES_comp_closed_form.
  assert (Hd : forallb DEFAULT_BODIES_accepts bodies = true).
  { rewrite forallb_forall in *. intros x Hx.
    apply PARENT_MAP_accepts_DEFAULT_BODIES, Hacc, Hx. }
  apply find_none_forallb in Hacc, Hd. rewrite Hacc, Hd.
  eexists. split; [reflexivity|]. split.
  - apply (fold_store_fresh _ zs [] []); auto using filter_has_parent_Forall.
  - f_equal. apply omap_of_map_Some.
    rewrite map_map, <- Hids. f_equal.
    apply filter_ext_in. intros b Hb. rewrite forallb_forall in H10.
    specialize (H10 b Hb). unfold listed.
    destruct (has_parent b); [reflexivity|]. simpl in *.
    apply negb_true_iff, H10.
Qed.

(** ** Extending the table *)

(** X9. [DEFAULT_BODIES] of a table extended by more records is
    [DEFAULT_BODIES] of the table followed by that of the new records;
    an exception in the table comes before one in the new records. *)
Theorem DEFAULT_BODIES_comp_app (bodies more : list PyVal) :
  DEFAULT_BODIES_comp (bodies ++ more)%list
  = let! l := DEFAULT_BODIES_comp bodies in
    let! l' := DEFAULT_BODIES_comp more in
    ok (l ++ l')%list.
Proof.
  rewrite !DEFAULT_BODIES_comp_closed_form, find_app_first, List.filter_app, omap_app.
  destruct (List.find _ bodies); [reflexivity|].
  destruct (List.find _ more); reflexivity.
Qed.

(** X10. [PARENT_MAP] of a table extended by more records is obtained
    by continuing, on the new records, from the dict built for the
    table. *)
Theorem PARENT_MAP_comp_app (bodies more : list PyVal) (acc : list (PyVal * PyVal)) :
  PARENT_MAP_comp acc (bodies ++ more)%list
  = let! d := PARENT_MAP_comp acc bodies in PARENT_MAP_comp d more.
Proof.
  rewrite !PARENT_MAP_comp_closed_form, find_app_first, List.filter_app, fold_left_app.
  destruct (List.find _ bodies); [reflexivity|]. simpl.
  rewrite PARENT_MAP_comp_closed_form. reflexivity.
Qed.

(** X4 on the sample table. *)
Lemma PARENT_MAP_values_not_None_witness :
  PARENT_MAP_comp [] sample_table = ok sample_map /\
  is_None (PyInt 399) = false.
Proof.
  split; [reflexivity|].
  apply (PARENT_MAP_values_not_None sample_table sample_map eq_refl
           (PyInt 301) (PyInt 399)).
  right. left.
Defined.

(** X5 on the sample table. *)
Lemma PARENT_MAP_keys_in_DEFAULT_BODIES_witness :
  PARENT_MAP_comp [] sample_table = ok sample_map /\
  DEFAULT_BODIES_comp sample_table
    = ok [PyInt 10; PyInt 3; PyInt 301; PyInt 301] /\
  PyInt 301 ∈ [PyInt 10; PyInt 3; PyInt 301; PyInt 301].
Proof.
  split; [reflexivity|]. split; [reflexivity|].
  apply (PARENT_MAP_keys_in_DEFAULT_BODIES sample_table sample_map _
           eq_refl eq_refl).
  right. left.
Defined.

(** X6 on the sample table, whose two records for the Moon disagree. *)
Lemma PARENT_MAP_last_record_wins_witness :
  forallb int_id_if_parent sample_table = true /\
  PARENT_MAP_comp [] sample_table = ok sample_map /\
  dict_lookup sample_map (PyInt 301) = last_parent 301 sample_table.
Proof.
  split; [reflexivity|]. split; [reflexivity|].
  apply (PARENT_MAP_last_record_wins sample_table sample_map eq_refl eq_refl).
Defined.

(** X7 on the sample table, whose Sun has no parent. *)
Lemma DEFAULT_BODIES_is_PARENT_MAP_keys_plus_10_witness :
  forallb int_id_if_parent sample_table = true /\
  PARENT_MAP_comp [] sample_table = ok sample_map /\
  DEFAULT_BODIES_comp sample_table
    = ok [PyInt 10; PyInt 3; PyInt 301; PyInt 301] /\
  (PyInt 10 ∈ [PyInt 10; PyInt 3; PyInt 301; PyInt 301] <->
   is_Some (dict_lookup sample_map (PyInt 10)) \/
   (10 = 10 /\
    exists body, body ∈ sample_table /\ field body "id" = Some (PyInt 10))).
Proof.
  split; [reflexivity|]. split; [reflexivity|]. split; [reflexivity|].
  apply (DEFAULT_BODIES_is_PARENT_MAP_keys_plus_10 sample_table sample_map _
           eq_refl eq_refl eq_refl).
Defined.

(** X8 on [SOLAR_SYSTEM_BODIES]. *)
Lemma PARENT_MAP_keys_are_DEFAULT_BODIES_witness :
  NoDup (map fst parent_pairs) /\
  exists d,
    PARENT_MAP_comp [] SOLAR_SYSTEM_BODIES = ok d /\
    dict_keys d = map PyInt (map fst parent_pairs) /\
    DEFAULT_BODIES_comp SOLAR_SYSTEM_BODIES
      = ok (map PyInt (map fst parent_pairs)).
Proof.
  assert (Hnd : NoDup (map fst parent_pairs))
    by (apply (bool_decide_unpack _); vm_compute; exact I).
  split; [exact Hnd|].
  apply (PARENT_MAP_keys_are_DEFAULT_BODIES SOLAR_SYSTEM_BODIES
           (map fst parent_pairs)); [vm_compute; reflexivity..|exact Hnd].
Defined.

(** * Further invariants of [SOLAR_SYSTEM_BODIES] *)

(** X11. The hierarchy follows the NAIF numbering: the parent of every
    record, in the table and in [PARENT_MAP], is the one its id gives:
    none for 0, body 0 for the ids below 100, the barycenter [id / 100]
    for the planets and moons. *)
Theorem parents_follow_naif_numbering :
  forall body, body ∈ SOLAR_SYSTEM_BODIES ->
    exists i,
      field body "id" = Some (PyInt i) /\
      PARENT_MAP_get i = naif_parent i /\
      field body "parent"
      = Some (match naif_parent i with
              | Some p => PyInt p
              | None => PyNone
              end).
Proof.
  intros body Hin.
  assert (Hall : forallb follows_naif SOLAR_SYSTEM_BODIES = true)
    by (vm_compute; reflexivity).
  pose proof (forallb_elem_of _ _ Hall _ Hin) as Hb. clear Hall Hin.
  unfold follows_naif in Hb.
  destruct (int_field body "id") as [i|] eqn:Hi; [|discriminate].
  apply andb_true_iff in Hb as [Hm Hp]. apply bool_decide_eq_true in Hm.
  exists i. split; [apply int_field_Some, Hi|]. split; [exact Hm|].
  destruct (field body "parent") as [[| |p| | | |]|]; try discriminate;
    destruct (naif_parent i) as [q|]; try discriminate; [reflexivity|].
  apply Z.eqb_eq in Hp as ->. reflexivity.
Qed.

(** X11 on the Sun. *)
Lemma parents_follow_naif_numbering_witness :
  Sun_record ∈ SOLAR_SYSTEM_BODIES /\
  exists i,
    field Sun_record "id" = Some (PyInt i) /\
    PARENT_MAP_get i = naif_parent i /\
    field Sun_record "parent"
    = Some (match naif_parent i with
            | Some p => PyInt p
            | None => PyNone
            end).
Proof.
  assert (Hin : Sun_record ∈ SOLAR_SYSTEM_BODIES) by (right; left).
  split; [exact Hin|].
  exact (parents_follow_naif_numbering Sun_record Hin).
Defined.

(** X12. Each planet (id [100 p + 99], parent [p]) carries the same
    [canonical_orbit] as the barycenter [p] of its system. *)
Theorem planets_repeat_barycenter_orbit :
  forall p, p ∈ [1; 2; 3; 4; 5; 6; 7; 8; 9] ->
    exists planet barycenter orbit,
      record_of (100 * p + 99) = Some planet /\
      record_of p = Some barycenter /\
      field planet "parent" = Some (PyInt p) /\
      field planet "canonical_orbit" = Some orbit /\
      field barycenter "canonical_orbit" = Some orbit.
Proof.
  intros p Hp. repeat (apply elem_of_cons in Hp as [->|Hp];
    [do 3 eexists; repeat split; vm_compute; reflexivity|]).
  inversion Hp.
Qed.

(** X12 on the Earth system. *)
Lemma planets_repeat_barycenter_orbit_witness :
  3 ∈ [1; 2; 3; 4; 5; 6; 7; 8; 9] /\
  exists planet barycenter orbit,
    record_of (100 * 3 + 99) = Some planet /\
    record_of 3 = Some barycenter /\
    field planet "parent" = Some (PyInt 3) /\
    field planet "canonical_orbit" = Some orbit /\
    field barycenter "canonical_orbit" = Some orbit.
Proof.
  assert (Hin : 3 ∈ [1; 2; 3; 4; 5; 6; 7; 8; 9]) by (do 2 right; left).
  split; [exact Hin|].
  exact (planets_repeat_barycenter_orbit 3 Hin).
Defined.

(** X13. Every [canonical_orbit] of the table is a dict of exactly the
    six keys [a], [e], [i], [Omega], [omega], [M0], in this order, each
    with a float value. *)
Theorem canonical_orbits_have_six_floats :
  forall body orbit,
    body ∈ SOLAR_SYSTEM_BODIES ->
    field body "canonical_orbit" = Some orbit ->
    exists a e i Omega omega M0,
      orbit = PyDict [ "a" ::= PyFloat a; "e" ::= PyFloat e;
                       "i" ::= PyFloat i; "Omega" ::= PyFloat Omega;
                       "omega" ::= PyFloat omega; "M0" ::= PyFloat M0 ].
Proof.
  intros body orbit Hin. revert orbit. revert body Hin.
  apply (proj1 (Forall_forall
    (fun body => forall orbit, field body "canonical_orbit" = Some orbit -> _)
    SOLAR_SYSTEM_BODIES)).
  unfold SOLAR_SYSTEM_BODIES.
  repeat (apply List.Forall_cons;
    [intros orbit H; vm_compute in H;
     first [discriminate H
           |injection H as <-; do 6 eexists; reflexivity]|]).
  apply List.Forall_nil.
Qed.

(** X13 on the Mercury barycenter. *)
Lemma canonical_orbits_have_six_floats_witness :
  Mercury_Barycenter_record ∈ SOLAR_SYSTEM_BODIES /\
  exists a e i Omega omega M0,
    PyDict [ "a" ::= PyFloat 57909050.0; "e" ::= PyFloat 0.2056;
             "i" ::= PyFloat 7.005; "Omega" ::= PyFloat 48.331;
             "omega" ::= PyFloat 29.124; "M0" ::= PyFloat 174.796 ]
    = PyDict [ "a" ::= PyFloat a; "e" ::= PyFloat e;
               "i" ::= PyFloat i; "Omega" ::= PyFloat Omega;
               "omega" ::= PyFloat omega; "M0" ::= PyFloat M0 ].
Proof.
  assert (Hin : Mercury_Barycenter_record ∈ SOLAR_SYSTEM_BODIES)
    by (do 2 right; left).
  split; [exact Hin|].
  exact (canonical_orbits_have_six_floats Mercury_Barycenter_record _ Hin
           eq_refl).
Defined.

(** X14. Every planet and moon (id from 100) has a positive [GM] and a
    positive [r_eq]; the barycenters and the Sun (ids below 100) have
    neither key. *)
Theorem physical_constants_of_planets_and_moons :
  forall body, body ∈ SOLAR_SYSTEM_BODIES ->
    exists i,
      field body "id" = Some (PyInt i) /\
      (100 <= i ->
       exists gm r,
         field body "GM" = Some gm /\ field body "r_eq" = Some r /\
         positive_number gm = true /\ positive_number r = true) /\
      (i < 100 -> field body "GM" = None /\ field body "r_eq" = None).
Proof.
  intros body Hin.
  assert (Hall : forallb physical_constants_ok SOLAR_SYSTEM_BODIES = true)
    by (vm_compute; reflexivity).
  pose proof (forallb_elem_of _ _ Hall _ Hin) as Hb. clear Hall Hin.
  unfold physical_constants_ok in Hb.
  destruct (int_field body "id") as [i|] eqn:Hi; [|discriminate].
  exists i. split; [apply int_field_Some, Hi|].
  destruct (Z.leb_spec 100 i) as [Hle|Hlt]; (split; [|]); try lia.
  - intros _. destruct (field body "GM") as [gm|]; [|discriminate].
    destruct (field body "r_eq") as [r|]; [|discriminate].
    apply andb_true_iff in Hb as [Hg Hr]. eauto 6.
  - intros _. apply andb_true_iff in Hb as [Hg Hr].
    unfold has_key, field in *. destruct body as [| | | | | |d]; auto.
    apply negb_true_iff, bool_decide_eq_false in Hg, Hr.
    split.
    + destruct (dict_lookup d (PyStr "GM")); [|reflexivity].
      exfalso. apply Hg. eauto.
    + destruct (dict_lookup d (PyStr "r_eq")); [|reflexivity].
      exfalso. apply Hr. eauto.
Qed.

(** X14 on Mercury. *)
Lemma physical_constants_of_planets_and_moons_witness :
  Mercury_record ∈ SOLAR_SYSTEM_BODIES /\
  exists i,
    field Mercury_record "id" = Some (PyInt i) /\
    (100 <= i ->
     exists gm r,
       field Mercury_record "GM" = Some gm /\
       field Mercury_record "r_eq" = Some r /\
       positive_number gm = true /\ positive_number r = true) /\
    (i < 100 ->
     field Mercury_record "GM" = None /\ field Mercury_record "r_eq" = None).
Proof.
  assert (Hin : Mercury_record ∈ SOLAR_SYSTEM_BODIES) by (do 11 right; left).
  split; [exact Hin|].
  exact (physical_constants_of_planets_and_moons Mercury_record Hin).
Defined.
